(** * Dashboard.tsx: the 3D-printer dashboard component

    A shallow embedding of [src/components/Dashboard.tsx]: the presentation
    helpers ([formatDuration]), the component state (the [useState] slices),
    the asynchronous handlers ([fetchPrinterStatus], [fetchJobs],
    [fetchLastValidCommand], [sendCommand], [submitRating],
    [submitNextValidCommand]) and the part of the render function that
    decides which control buttons are disabled.

    Conventions.
    - A JS [number] that the code only copies (temperatures, progress) is a
      [Q]; one that it computes with as an integer (job ids, seconds) is a
      [Z], exact on the safe integers; [formatDurationNumber] follows the
      doubles beyond them.
    - A JS string that the code only copies or compares is a [string]; the
      text field that [trim()] inspects is a list of UTF-16 code units.
    - Handlers run in a small monad that threads the component state and a
      trace of observable effects (requests, alerts, console output), and in
      which an exception keeps the state written so far, as in JS. *)

From Stdlib Require Import List ZArith NArith QArith Bool Lia Ascii String Sorted
  Permutation.
From Stdlib Require DecimalString DecimalN DecimalPos DecimalZ.
Import ListNotations.

Local Open Scope string_scope.
Local Open Scope Z_scope.

(** ** Strings and numbers *)

(** [n.toString()] for a safe integer [n] (up to [2^53 - 1] in size), of
    which JS prints every digit. *)
Definition toString (n : Z) : string :=
  DecimalString.NilZero.string_of_int (Z.to_int n).

(** [fill.repeat(k)], cut to [k] characters. *)
Fixpoint repeat_to (fill : string) (k : nat) : string :=
  match k with
  | O => ""
  | S k' => substring 0 k (fill ++ repeat_to fill k')
  end.

(** [s.padStart(targetLength, fill)]. *)
Definition padStart (targetLength : nat) (fill : string) (s : string) : string :=
  if (targetLength <=? String.length s)%nat then s
  else match fill with
       | EmptyString => s
       | _ => repeat_to fill (targetLength - String.length s) ++ s
       end.

(** [formatDuration] on [undefined] ([None]) and on the safe integers, the
    whole numbers of seconds up to [2^53 - 1] in size, where every step of
    the code's double arithmetic is exact ([formatDurationNumber], below,
    follows the doubles beyond, and agrees with this one on the safe
    integers).  [!seconds] holds for [undefined] and for [0];
    [Math.floor(a / b)] with [b > 0] is [Z.div]; the JS remainder [%] takes
    the sign of the dividend and is [Z.rem]. *)
Definition formatDuration (seconds : option Z) : string :=
  match seconds with
  | None => "N/A"
  | Some seconds =>
      if seconds =? 0 then "N/A"
      else
        let hrs := seconds / 3600 in
        let mins := Z.rem seconds 3600 / 60 in
        let secs := Z.rem seconds 60 in
        padStart 2 "0" (toString hrs) ++ ":" ++
        padStart 2 "0" (toString mins) ++ ":" ++
        padStart 2 "0" (toString secs)
  end.

(** ** Numbers *)

(** The code computes on IEEE 754 doubles.  An integer-valued double is
    modelled by the integer it is; the definitions below give the double
    operations [formatDuration] uses on such values, rounding to the
    nearest double, ties to the even mantissa, as the hardware does. *)

(** The integer nearest to [n / d], ties to even, for [0 <= n], [0 < d]. *)
Definition roundHalfEven (n d : Z) : Z :=
  let q := n / d in
  let r := n mod d in
  if 2 * r <? d then q
  else if d <? 2 * r then q + 1
  else if Z.even q then q else q + 1.

(** The number a JS engine reads for the integer [z]: [z] itself up to
    [2^53], beyond it the nearest multiple of the spacing of the doubles
    around [z] (for [z] below [2^1024], where doubles end). *)
Definition toNumber (z : Z) : Z :=
  if Z.abs z <? 2 ^ 53 then z
  else
    let ulp := 2 ^ (Z.log2 (Z.abs z) - 52) in
    Z.sgn z * (roundHalfEven (Z.abs z) ulp * ulp).

(** [Math.floor(a / b)] for integer-valued doubles [a] and [0 < b < 2^53].
    The quotient is first rounded to a double: to 53 significant bits,
    [k] of them after the binary point ([k < 0]: the last [-k] bits of the
    integer part are lost).  A quotient below 1 in size is at least [1 / b]
    away from 1 and does not round to it. *)
Definition floorDivide (a b : Z) : Z :=
  let n := Z.abs a in
  if n <? b then (if a <? 0 then -1 else 0)
  else
    let k := 52 - Z.log2 (n / b) in
    if 0 <=? k
    then (Z.sgn a * roundHalfEven (n * 2 ^ k) b) / 2 ^ k
    else Z.sgn a * roundHalfEven n (b * 2 ^ (- k)) * 2 ^ (- k).

(** The decimal digits of a non-negative integer. *)
Definition digits (n : Z) : string :=
  DecimalString.NilZero.string_of_uint (N.to_uint (Z.to_N n)).

(** The candidates [s * 10^(n-k)] with [k] digits that read back as the
    double [x], for a given [k] and [n]: the two multiples of [10^(n-k)]
    around [x]. *)
Definition readsBack (x : Z) (k n : Z) : list Z :=
  let p := 10 ^ (n - k) in
  filter (fun s => (10 ^ (k - 1) <=? s) && (s <? 10 ^ k)
                   && (toNumber (s * p) =? x))
         [x / p; x / p + 1].

(** Of two candidates the one nearer to [x], the even one on a tie. *)
Definition nearer (x : Z) (n k : Z) (s s' : Z) : Z :=
  let p := 10 ^ (n - k) in
  let d := Z.abs (s * p - x) in
  let d' := Z.abs (s' * p - x) in
  if d <? d' then s else if d' <? d then s' else if Z.even s then s else s'.

(** [Number::toString] step 5 for a double [x >= 2^53]: the least [k] for
    which some [s] of [k] digits and some [n] give [s * 10^(n-k)] that
    reads back as [x]; [n] is the number of digits of [x], or one more
    when [x] lies just below a power of ten. *)
Fixpoint shortest (x : Z) (d : Z) (k : Z) (fuel : nat) : Z * Z * Z :=
  match fuel with
  | O => (x, d, d)
  | S fuel' =>
      match readsBack x k d, readsBack x k (d + 1) with
      | s :: rest, _ =>
          (match rest with
           | s' :: _ => nearer x d k s s'
           | [] => s
           end, k, d)
      | [], s :: _ => (s, k, d + 1)
      | [], [] => shortest x d (k + 1) fuel'
      end
  end.

Fixpoint zeros (n : nat) : string :=
  match n with
  | O => ""
  | S n' => String "0" (zeros n')
  end.

(** [Number::toString] for an integer-valued double: below [2^53] every
    digit of the integer; beyond, the shortest digits that read back as
    the same double, filled with zeros up to 21 digits and written with an
    exponent from there on. *)
Definition numberToString (x : Z) : string :=
  if Z.abs x <? 2 ^ 53 then toString x
  else
    let a := Z.abs x in
    let d := Z.of_nat (String.length (digits a)) in
    let '(s, k, n) := shortest a d 1 17 in
    let sign := if x <? 0 then "-" else "" in
    if n <=? 21 then sign ++ digits s ++ zeros (Z.to_nat (n - k))
    else
      match digits s with
      | String c EmptyString => sign ++ String c "e+" ++ digits (n - 1)
      | String c more => sign ++ String c ("." ++ more) ++ "e+" ++ digits (n - 1)
      | EmptyString => sign
      end.

(** [formatDuration] on the number read for the integer [seconds], with
    the double arithmetic of the code: the quotients are rounded before
    [Math.floor], the remainders [%] are exact. *)
Definition formatDurationNumber (seconds : option Z) : string :=
  match seconds with
  | None => "N/A"
  | Some seconds =>
      let seconds := toNumber seconds in
      if seconds =? 0 then "N/A"
      else
        let hrs := floorDivide seconds 3600 in
        let mins := floorDivide (Z.rem seconds 3600) 60 in
        let secs := Z.rem seconds 60 in
        padStart 2 "0" (numberToString hrs) ++ ":" ++
        padStart 2 "0" (numberToString mins) ++ ":" ++
        padStart 2 "0" (numberToString secs)
  end.

(** [Number.MAX_SAFE_INTEGER]. *)
Definition MAX_SAFE_INTEGER : Z := 9007199254740991.

(** A string whose characters the code inspects: its UTF-16 code units. *)
Definition code_unit := N.
Definition jsstring := list code_unit.

(** ECMAScript's WhiteSpace and LineTerminator code points, the ones
    [String.prototype.trim] strips: TAB, LF, VT, FF, CR, SP, NBSP, the
    Unicode space separators, LS, PS and the byte order mark. *)
Definition isWhiteSpace (c : code_unit) : bool :=
  ((9 <=? c) && (c <=? 13) || (c =? 32) || (c =? 160) || (c =? 5760)
   || (8192 <=? c) && (c <=? 8202) || (c =? 8232) || (c =? 8233)
   || (c =? 8239) || (c =? 8287) || (c =? 12288) || (c =? 65279))%N.

Fixpoint trimStart (s : jsstring) : jsstring :=
  match s with
  | c :: s' => if isWhiteSpace c then trimStart s' else s
  | [] => []
  end.

Definition trimEnd (s : jsstring) : jsstring := rev (trimStart (rev s)).

Definition trim (s : jsstring) : jsstring := trimEnd (trimStart s).

(** ** Data model *)

(** [end_time?: string | null]: the field may be missing, [null] or a string. *)
Inductive nullable (A : Type) : Type :=
| undefined
| null
| value (a : A).
Arguments undefined {A}.
Arguments null {A}.
Arguments value {A} a.

Module Job.
Record t := {
  id : Z;
  file_name : string;
  status : string;
  start_time : string;
  end_time : nullable string;
  filament_used : option Q;
  progress : option Q;
  estimated_completion_time : option Z;
}.
End Job.

Module PrinterStatus.
Record t := {
  state : string;
  nozzle_temperature : Q;
  bed_temperature : Q;
  operational : bool;
  printing : bool;
  paused : bool;
}.
End PrinterStatus.

Module Sample.
Record t := { time : string; nozzle : Q; bed : Q }.
End Sample.

Module Rating.
(** [jobId: number | null]. *)
Record t := {
  quality : string;
  speed : string;
  feedback : string;
  jobId : option Z;
}.
End Rating.

(** The [useState] slices of the component. *)
Record State := {
  printerData : option PrinterStatus.t;
  jobHistory : list Job.t;
  currentJob : option Job.t;
  temperatureData : list Sample.t;
  lastValidCommand : option string;
  nextValidCommand : jsstring;
  rating : Rating.t;
}.

(** The initial values given to [useState]. *)
Definition initialState : State := {|
  printerData := None;
  jobHistory := [];
  currentJob := None;
  temperatureData := [];
  lastValidCommand := None;
  nextValidCommand := [];
  rating := {| Rating.quality := ""; Rating.speed := ""; Rating.feedback := "";
               Rating.jobId := None |};
|}.

(** ** Endpoints *)

Definition PRINTER_STATUS_API := "http://localhost:5000/dashboard/printer-status".
Definition JOBS_API := "http://localhost:5000/dashboard/jobs".
Definition RATE_PRINT_API := "http://localhost:5000/dashboard/rate-job".
Definition PAUSE_PRINT_API := "http://localhost:5000/dashboard/pause".
Definition PREHEAT_NOZZLE_API := "http://localhost:5000/dashboard/preheat".
Definition CONTINUE_PRINT_API := "http://localhost:5000/dashboard/continue".
Definition CANCEL_PRINT_API := "http://localhost:5000/dashboard/cancel".
Definition LAST_VALID_API := "http://localhost:5000/dashboard/last-valid".
Definition NEXT_VALID_API := "http://localhost:5000/dashboard/next-valid".

(** ** Effects *)

(** The body of a POST, before [JSON.stringify].  [printQuality] and
    [printSpeed] are [parseFloat] of the two strings kept here. *)
Inductive Payload :=
| RatingPayload (jobId : Z) (quality speed feedback : string)
| CommandPayload (command : jsstring).

Inductive Event :=
| Fetch (method url : string) (body : option Payload)
| Alert (message : string)
| ConsoleError (message : string)
| ConsoleLog (message : string).

(** What [await fetch(...)] gives: a rejection (network failure), or a
    response with its [ok] flag and what [response.json()] resolves to
    ([None]: the body is not JSON and [json()] rejects). *)
Record Response (A : Type) := { ok : bool; json : option A }.
Arguments ok {A} _.
Arguments json {A} _.

Inductive Outcome (A : Type) :=
| Rejected
| Resolved (response : Response A).
Arguments Rejected {A}.
Arguments Resolved {A} response.

(** The environment of one handler run: the backend's answers, the clock
    ([new Date().toLocaleTimeString()]) and the platform's date parser
    ([new Date(s).getTime()]: milliseconds since the epoch, or [None] for the
    [NaN] of a string that is no date).  The body of the last-valid answer
    is untyped in the code ([data.command] is stored unchecked): its
    [command] is a string, or [None] when it is [null] or missing. *)
Record Env := {
  printer_status : Outcome PrinterStatus.t;
  jobs : Outcome (list Job.t);
  last_valid : Outcome (option string);
  post : string -> option Payload -> Outcome unit;
  toLocaleTimeString : string;
  getTime : string -> option Z;
}.

Record World := { state : State; trace : list Event }.

Inductive Result (A : Type) :=
| Return (a : A)
| Throw (error : string).
Arguments Return {A} a.
Arguments Throw {A} error.

Definition M (A : Type) : Type := Env -> World -> Result A * World.

Definition ret {A} (a : A) : M A := fun _ w => (Return a, w).

Definition bind {A B} (m : M A) (k : A -> M B) : M B :=
  fun env w =>
    match m env w with
    | (Return a, w') => k a env w'
    | (Throw e, w') => (Throw e, w')
    end.

Definition throw {A} (error : string) : M A := fun _ w => (Throw error, w).

(** [try { body } catch (error) { handler }]: what [body] wrote before it
    threw stays written. *)
Definition try_catch {A} (body : M A) (handler : string -> M A) : M A :=
  fun env w =>
    match body env w with
    | (Return a, w') => (Return a, w')
    | (Throw e, w') => handler e env w'
    end.

Declare Scope js_scope.
Delimit Scope js_scope with js.
Notation "x <- m ;; k" := (bind m (fun x => k))
  (at level 61, m at next level, right associativity) : js_scope.
Notation "m ;; k" := (bind m (fun _ => k))
  (at level 61, right associativity) : js_scope.
Notation "'try' body 'catch' handler" := (try_catch body handler)
  (at level 62, body at level 61, handler at level 61) : js_scope.
Local Open Scope js_scope.

Definition emit (e : Event) : M unit :=
  fun _ w => (Return tt, {| state := state w; trace := trace w ++ [e] |}).

Definition modify (f : State -> State) : M unit :=
  fun _ w => (Return tt, {| state := f (state w); trace := trace w |}).

Definition ask {A} (field : Env -> A) : M A := fun env w => (Return (field env), w).

Definition alert (message : string) : M unit := emit (Alert message).
Definition console_error (message : string) : M unit := emit (ConsoleError message).
Definition console_log (message : string) : M unit := emit (ConsoleLog message).

(** [await fetch(url, { method, body })]. *)
Definition fetch {A} (method url : string) (body : option Payload)
    (answer : Env -> Outcome A) : M (Response A) :=
  emit (Fetch method url body) ;;
  outcome <- ask answer ;;
  match outcome with
  | Rejected => throw "TypeError: Failed to fetch"
  | Resolved response => ret response
  end.

(** [await response.json()]. *)
Definition await_json {A} (response : Response A) : M A :=
  match json response with
  | Some data => ret data
  | None => throw "SyntaxError: Unexpected token"
  end.

(** ** State setters *)

Definition setPrinterData (v : option PrinterStatus.t) : M unit :=
  modify (fun s => {| printerData := v; jobHistory := jobHistory s;
    currentJob := currentJob s; temperatureData := temperatureData s;
    lastValidCommand := lastValidCommand s;
    nextValidCommand := nextValidCommand s; rating := rating s |}).

Definition setJobHistory (v : list Job.t) : M unit :=
  modify (fun s => {| printerData := printerData s; jobHistory := v;
    currentJob := currentJob s; temperatureData := temperatureData s;
    lastValidCommand := lastValidCommand s;
    nextValidCommand := nextValidCommand s; rating := rating s |}).

Definition setCurrentJob (v : option Job.t) : M unit :=
  modify (fun s => {| printerData := printerData s; jobHistory := jobHistory s;
    currentJob := v; temperatureData := temperatureData s;
    lastValidCommand := lastValidCommand s;
    nextValidCommand := nextValidCommand s; rating := rating s |}).

(** [setTemperatureData] is called with an updater of the previous value. *)
Definition setTemperatureData (updater : list Sample.t -> list Sample.t) : M unit :=
  modify (fun s => {| printerData := printerData s; jobHistory := jobHistory s;
    currentJob := currentJob s; temperatureData := updater (temperatureData s);
    lastValidCommand := lastValidCommand s;
    nextValidCommand := nextValidCommand s; rating := rating s |}).

Definition setLastValidCommand (v : option string) : M unit :=
  modify (fun s => {| printerData := printerData s; jobHistory := jobHistory s;
    currentJob := currentJob s; temperatureData := temperatureData s;
    lastValidCommand := v;
    nextValidCommand := nextValidCommand s; rating := rating s |}).

Definition setNextValidCommand (v : jsstring) : M unit :=
  modify (fun s => {| printerData := printerData s; jobHistory := jobHistory s;
    currentJob := currentJob s; temperatureData := temperatureData s;
    lastValidCommand := lastValidCommand s;
    nextValidCommand := v; rating := rating s |}).

Definition setRating (v : Rating.t) : M unit :=
  modify (fun s => {| printerData := printerData s; jobHistory := jobHistory s;
    currentJob := currentJob s; temperatureData := temperatureData s;
    lastValidCommand := lastValidCommand s;
    nextValidCommand := nextValidCommand s; rating := v |}).

(** ** Array helpers *)

(** [l.slice(-n)]: the last [n] elements, all of [l] when it is shorter. *)
Definition slice_last {A} (n : nat) (l : list A) : list A :=
  skipn (List.length l - n) l.

(** [l.find(p)]. *)
Definition find_first {A} (p : A -> bool) (l : list A) : option A := find p l.

(** What [Array.prototype.sort] makes of the value its comparator returns:
    a [NaN] ([None]) counts as [+0]. *)
Definition SortCompare {A} (compareFn : A -> A -> option Z) (a b : A) : Z :=
  match compareFn a b with
  | Some v => v
  | None => 0
  end.

(** [Array.prototype.sort(compareFn)]: a stable sort; [a] stays before [b]
    when [compareFn(a, b) <= 0].  When the comparator is not consistent
    (here: when a [start_time] is no date) ECMAScript leaves the order to
    the engine; the model then gives the order of this insertion, which is
    one such order, and the theorems about order assume a consistent
    comparator. *)
Fixpoint sort_insert {A} (compareFn : A -> A -> Z) (a : A) (l : list A) : list A :=
  match l with
  | [] => [a]
  | b :: l' => if compareFn a b <=? 0 then a :: l else b :: sort_insert compareFn a l'
  end.

Definition sort {A} (compareFn : A -> A -> Z) (l : list A) : list A :=
  fold_right (sort_insert compareFn) [] l.

(** ** The poller *)

Definition when_ (b : bool) (m : M unit) : M unit := if b then m else ret tt.

Definition fetchPrinterStatus : M unit :=
  try (
    response <- fetch "GET" PRINTER_STATUS_API None printer_status ;;
    when_ (negb (ok response)) (throw "Failed to fetch printer status") ;;
    data <- await_json response ;;
    setPrinterData (Some data) ;;
    now <- ask toLocaleTimeString ;;
    setTemperatureData (fun prevData =>
      (slice_last 19 prevData ++
       [ {| Sample.time := now;
            Sample.nozzle := PrinterStatus.nozzle_temperature data;
            Sample.bed := PrinterStatus.bed_temperature data |} ])%list)
  ) catch (fun error =>
    console_error "Error fetching printer status:").

(** [status === "STARTED" || status === "RESUMED" || status === "PAUSED"]. *)
Definition isActiveStatus (status : string) : bool :=
  (status =? "STARTED")%string || (status =? "RESUMED")%string
  || (status =? "PAUSED")%string.

(** [status === "FINISHED" || status === "FAILED"]. *)
Definition isTerminalStatus (status : string) : bool :=
  (status =? "FINISHED")%string || (status =? "FAILED")%string.

(** [x === null]. *)
Definition is_null {A} (x : nullable A) : bool :=
  match x with null => true | _ => false end.

(** The callback of the first [jobs.find]. *)
Definition isOngoing (job : Job.t) : bool :=
  isActiveStatus (Job.status job) && is_null (Job.end_time job).

(** The comparator given to [jobs.sort]: newest first; [NaN] when one of
    the two start times is no date. *)
Definition byStartTimeDesc (getTime : string -> option Z) (a b : Job.t)
    : option Z :=
  match getTime (Job.start_time b), getTime (Job.start_time a) with
  | Some tb, Some ta => Some (tb - ta)
  | _, _ => None
  end.

(** [fetchJobs], as a closure that captured [currentJob] at a render.  Its
    last line is [setCurrentJob(ongoingJob || null)], and a job object is
    truthy. *)
Definition fetchJobs (currentJob : option Job.t) : M unit :=
  try (
    response <- fetch "GET" JOBS_API None jobs ;;
    when_ (negb (ok response)) (throw "Failed to fetch jobs") ;;
    jobs <- await_json response ;;
    getTime <- ask getTime ;;
    let jobs := sort (SortCompare (byStartTimeDesc getTime)) jobs in
    setJobHistory jobs ;;
    let ongoingJob := find_first isOngoing jobs in
    ongoingJob <-
      match ongoingJob, currentJob with
      | None, Some currentJob =>
          if isActiveStatus (Job.status currentJob) then
            let updatedJob :=
              find_first (fun job => Job.id job =? Job.id currentJob) jobs in
            match updatedJob with
            | Some updatedJob =>
                if isTerminalStatus (Job.status updatedJob) then
                  console_log "Print job completed! Resetting live metrics." ;;
                  ret None
                else ret ongoingJob
            | None => ret ongoingJob
            end
          else ret ongoingJob
      | _, _ => ret ongoingJob
      end ;;
    setCurrentJob ongoingJob
  ) catch (fun error =>
    console_error "Error fetching jobs:").

(** [fetchLastValidCommand]; what [await_json] gives here is [data.command],
    which [setLastValidCommand] stores as it comes. *)
Definition fetchLastValidCommand : M unit :=
  try (
    response <- fetch "GET" LAST_VALID_API None last_valid ;;
    when_ (negb (ok response)) (throw "Failed to fetch last valid command") ;;
    data <- await_json response ;;
    setLastValidCommand data
  ) catch (fun error =>
    console_error "Error fetching last valid command:" ;;
    setLastValidCommand (Some "Error fetching command.")).

(** The body of the [setInterval] callback.  The effect has no dependencies,
    so the three closures are those of the first render, where [currentJob]
    is still the initial [null]. *)
Definition tick : M unit :=
  fetchPrinterStatus ;;
  fetchJobs (currentJob initialState) ;;
  fetchLastValidCommand.

(** ** The command dispatcher *)

(** [fetchPrinterStatus()] is started without [await]; it catches its own
    errors, so running it in sequence gives the same state and trace. *)
Definition sendCommand (endpoint successMessage : string) : M unit :=
  try (
    response <- fetch "POST" endpoint None (fun env => post env endpoint None) ;;
    when_ (negb (ok response)) (throw "Command failed") ;;
    alert successMessage ;;
    fetchPrinterStatus
  ) catch (fun error =>
    console_error "Error sending command:" ;;
    alert "Command failed. Check logs.").

(** [!n] for [n : number | null]. *)
Definition falsy_number (n : option Z) : bool :=
  match n with
  | None => true
  | Some n => n =? 0
  end.

(** [submitRating], as a closure that captured [rating] at a render. *)
Definition submitRating (rating : Rating.t) : M unit :=
  match Rating.jobId rating with
  | Some jobId =>
      if falsy_number (Some jobId) then alert "No job selected for rating."
      else
        let payload :=
          RatingPayload jobId (Rating.quality rating) (Rating.speed rating)
            (Rating.feedback rating) in
        try (
          response <- fetch "POST" RATE_PRINT_API (Some payload)
                        (fun env => post env RATE_PRINT_API (Some payload)) ;;
          when_ (negb (ok response)) (throw "Failed to submit rating") ;;
          alert "Print rating submitted successfully!" ;;
          setRating {| Rating.quality := ""; Rating.speed := "";
                       Rating.feedback := "";
                       Rating.jobId := Rating.jobId rating |}
        ) catch (fun error =>
          console_error "Error submitting print rating:" ;;
          alert "Failed to submit rating.")
  | None => alert "No job selected for rating."
  end.

(** [submitNextValidCommand], as a closure that captured
    [nextValidCommand] at a render; [!s] holds for the empty string. *)
Definition submitNextValidCommand (nextValidCommand : jsstring) : M unit :=
  match trim nextValidCommand with
  | [] => alert "Please enter a valid command."
  | _ :: _ =>
      let payload := CommandPayload nextValidCommand in
      try (
        response <- fetch "POST" NEXT_VALID_API (Some payload)
                      (fun env => post env NEXT_VALID_API (Some payload)) ;;
        when_ (negb (ok response)) (throw "Failed to submit next valid command") ;;
        alert "Next valid command submitted successfully!" ;;
        setNextValidCommand []
      ) catch (fun error =>
        console_error "Error submitting next valid command:" ;;
        alert "Failed to submit next valid command.")
  end.

(** ** The control buttons of the render function *)

(** A rendered [<Button>]: its text, its [disabled] prop ([false] when the
    prop is not given) and its [onClick]. *)
Record Button := { label : string; disabled : bool; onClick : M unit }.

(** The [<Stack>] of control buttons; it is rendered only in the
    [printerData ? ... : ...] branch where the status is loaded. *)
Definition controlButtons (printerData : option PrinterStatus.t) : list Button :=
  match printerData with
  | Some printerData =>
      [ {| label := "Pause Print";
           disabled := negb (PrinterStatus.printing printerData)
                       || PrinterStatus.paused printerData;
           onClick := sendCommand PAUSE_PRINT_API "Print paused." |};
        {| label := "Preheat Nozzle";
           disabled := false;
           onClick := sendCommand PREHEAT_NOZZLE_API "Nozzle preheating started." |};
        {| label := "Continue Print";
           disabled := negb (PrinterStatus.paused printerData);
           onClick := sendCommand CONTINUE_PRINT_API "Print resumed." |};
        {| label := "Cancel Print";
           disabled := negb (PrinterStatus.printing printerData)
                       && negb (PrinterStatus.paused printerData);
           onClick := sendCommand CANCEL_PRINT_API "Print canceled." |} ]
  | None => []
  end.

Definition enabled (b : Button) : bool := negb (disabled b).

(** Running a handler from a state, with an empty trace. *)
Definition run {A} (m : M A) (env : Env) (s : State) : Result A * World :=
  m env {| state := s; trace := [] |}.

(** ** Definitions used to state the theorems *)

(** The number a string of decimal digits denotes; [None] when the string
    is empty or holds another character. *)
Definition decimal_value (s : string) : option Z :=
  match DecimalString.NilZero.uint_of_string s with
  | Some d => Some (Z.of_uint d)
  | None => None
  end.

(** That [text] renders [seconds] as hours, minutes and seconds: three
    fields of decimal digits joined by colons, the hours at least two
    characters wide, the minutes and the seconds below 60 and exactly two
    characters wide, which together add up to [seconds]. *)
Definition renders_hms (text : string) (seconds : Z) : Prop :=
  exists (hh mm ss : string) (h m s : Z),
    text = hh ++ ":" ++ mm ++ ":" ++ ss
    /\ decimal_value hh = Some h /\ (2 <= String.length hh)%nat
    /\ decimal_value mm = Some m /\ String.length mm = 2%nat
    /\ decimal_value ss = Some s /\ String.length ss = 2%nat
    /\ 0 <= h /\ 0 <= m < 60 /\ 0 <= s < 60
    /\ seconds = 3600 * h + 60 * m + s.

(** Whether a number below 100 prints, padded, on two characters. *)
Definition two_wide (n : nat) : bool :=
  (String.length (padStart 2 "0" (toString (Z.of_nat n))) =? 2)%nat.

(** The state after the printer-status polls of successive ticks, one
    environment per tick. *)
Definition pollPrinterStatus (envs : list Env) (s : State) : State :=
  fold_left (fun s env => state (snd (run fetchPrinterStatus env s))) envs s.

(** The sample a printer-status poll appends in an environment: one when
    the request succeeds with a JSON body, none otherwise. *)
Definition appended (env : Env) : list Sample.t :=
  match printer_status env with
  | Resolved {| ok := true; json := Some data |} =>
      [ {| Sample.time := toLocaleTimeString env;
           Sample.nozzle := PrinterStatus.nozzle_temperature data;
           Sample.bed := PrinterStatus.bed_temperature data |} ]
  | _ => []
  end.

(** [a] may stand before [b] in a list sorted newest first: it did not
    start earlier. *)
Definition not_older (getTime : string -> option Z) (a b : Job.t) : Prop :=
  match getTime (Job.start_time a), getTime (Job.start_time b) with
  | Some ta, Some tb => tb <= ta
  | _, _ => False
  end.

(** Every job of the list has a [start_time] that parses as a date. *)
Definition dated (getTime : string -> option Z) (l : list Job.t) : Prop :=
  forall job, In job l -> getTime (Job.start_time job) <> None.

(** Whether a job started at the instant [t]. *)
Definition startedAt (getTime : string -> option Z) (t : Z) (job : Job.t) : bool :=
  match getTime (Job.start_time job) with
  | Some t' => t' =? t
  | None => false
  end.

(** That [selected] is the newest of the jobs of [l] that satisfy
    [candidate], or nothing when no job of [l] satisfies it. *)
Definition selects_newest (candidate : Job.t -> bool) (env : Env)
    (l : list Job.t) (selected : option Job.t) : Prop :=
  match selected with
  | Some job =>
      In job l /\ candidate job = true
      /\ forall other, In other l -> candidate other = true ->
           not_older (getTime env) job other
  | None => forall other, In other l -> candidate other = false
  end.

(** The specification's candidate: an active status and no end time, be the
    field [null] or missing from the object. *)
Definition activeWithoutEndTime (job : Job.t) : bool :=
  isActiveStatus (Job.status job)
  && match Job.end_time job with
     | value _ => false
     | null | undefined => true
     end.

(** A GET whose JSON body the handler reads has failed when the request
    is rejected, the status is not a success, or the body is not JSON. *)
Definition failed {A} (outcome : Outcome A) : bool :=
  match outcome with
  | Rejected => true
  | Resolved {| ok := true; json := Some _ |} => false
  | Resolved _ => true
  end.

(** A POST has failed when the request is rejected or the status is not a
    success; its body is not read. *)
Definition post_failed (outcome : Outcome unit) : bool :=
  match outcome with
  | Rejected => true
  | Resolved response => negb (ok response)
  end.

(** ** Example data *)

(** The platform's date parser on the timestamps of the examples
    (milliseconds since the epoch, UTC); the other strings of the examples
    are no dates. *)
Definition example_getTime (s : string) : option Z :=
  if (s =? "2025-03-01T09:00:00Z")%string then Some 1740819600000
  else if (s =? "2025-03-01T10:00:00Z")%string then Some 1740823200000
  else if (s =? "2025-03-01T11:30:00Z")%string then Some 1740828600000
  else None.

Definition example_job (id : Z) (status start_time : string)
    (end_time : nullable string) : Job.t :=
  {| Job.id := id; Job.file_name := "benchy.gcode"; Job.status := status;
     Job.start_time := start_time; Job.end_time := end_time;
     Job.filament_used := None; Job.progress := None;
     Job.estimated_completion_time := None |}.

Definition example_status (nozzle : Q) (printing paused : bool) : PrinterStatus.t :=
  {| PrinterStatus.state := if printing then "Printing" else "Idle";
     PrinterStatus.nozzle_temperature := nozzle;
     PrinterStatus.bed_temperature := 60;
     PrinterStatus.operational := true;
     PrinterStatus.printing := printing;
     PrinterStatus.paused := paused |}.

(** A backend that cannot be reached. *)
Definition backend_down : Env :=
  {| printer_status := Rejected; jobs := Rejected; last_valid := Rejected;
     post := fun _ _ => Rejected;
     toLocaleTimeString := "10:00:00 AM";
     getTime := example_getTime |}.

(** A backend that answers every request with a success status; its GET
    endpoints answer with the given status and job list. *)
Definition backend_up (status : PrinterStatus.t) (l : list Job.t) : Env :=
  {| printer_status := Resolved {| ok := true; json := Some status |};
     jobs := Resolved {| ok := true; json := Some l |};
     last_valid := Resolved {| ok := true; json := Some (Some "G28") |};
     post := fun _ _ => Resolved {| ok := true; json := None |};
     toLocaleTimeString := "10:00:00 AM";
     getTime := example_getTime |}.

(** A backend that answers every request with status 500. *)
Definition backend_failing : Env :=
  {| printer_status := Resolved {| ok := false; json := None |};
     jobs := Resolved {| ok := false; json := None |};
     last_valid := Resolved {| ok := false; json := None |};
     post := fun _ _ => Resolved {| ok := false; json := None |};
     toLocaleTimeString := "10:00:00 AM";
     getTime := example_getTime |}.

(** The component while it tracks a job. *)
Definition tracking (job : Job.t) : State :=
  {| printerData := printerData initialState;
     jobHistory := [job];
     currentJob := Some job;
     temperatureData := temperatureData initialState;
     lastValidCommand := lastValidCommand initialState;
     nextValidCommand := nextValidCommand initialState;
     rating := rating initialState |}.

(** Twenty-five ticks with nozzle temperatures 1 to 25. *)
Definition twenty_five_ticks : list Env :=
  map (fun k => backend_up (example_status (inject_Z (Z.of_nat k)) true false) [])
      (seq 1 25).

(** The component with a draft rating for a job. *)
Definition rating_draft (jobId : option Z) : State :=
  {| printerData := printerData initialState;
     jobHistory := jobHistory initialState;
     currentJob := currentJob initialState;
     temperatureData := temperatureData initialState;
     lastValidCommand := lastValidCommand initialState;
     nextValidCommand := nextValidCommand initialState;
     rating := {| Rating.quality := "8"; Rating.speed := "6.5";
                  Rating.feedback := "Clean layers"; Rating.jobId := jobId |} |}.

(** The component with a text typed into the next-valid-command field. *)
Definition typed (text : jsstring) : State :=
  {| printerData := Some (example_status 210 false true);
     jobHistory := jobHistory initialState;
     currentJob := currentJob initialState;
     temperatureData := temperatureData initialState;
     lastValidCommand := Some "G1 X10";
     nextValidCommand := text;
     rating := rating initialState |}.

(** ** The rest of the component *)

(** The [onChange] of the next-valid-command field:
    [setNextValidCommand(e.target.value)]. *)
Definition onChangeNextValidCommand (value : jsstring) : M unit :=
  setNextValidCommand value.

(** The [onChange] handlers of the rating form, as closures that captured
    [rating] at a render: [setRating({ ...rating, field: value })].  The job
    menu hands over the id of the chosen job, and [Number] of a number is
    that number. *)
Definition onChangeJobId (rating : Rating.t) (value : Z) : M unit :=
  setRating {| Rating.quality := Rating.quality rating;
               Rating.speed := Rating.speed rating;
               Rating.feedback := Rating.feedback rating;
               Rating.jobId := Some value |}.

Definition onChangeQuality (rating : Rating.t) (value : string) : M unit :=
  setRating {| Rating.quality := value;
               Rating.speed := Rating.speed rating;
               Rating.feedback := Rating.feedback rating;
               Rating.jobId := Rating.jobId rating |}.

Definition onChangeSpeed (rating : Rating.t) (value : string) : M unit :=
  setRating {| Rating.quality := Rating.quality rating;
               Rating.speed := value;
               Rating.feedback := Rating.feedback rating;
               Rating.jobId := Rating.jobId rating |}.

Definition onChangeFeedback (rating : Rating.t) (value : string) : M unit :=
  setRating {| Rating.quality := Rating.quality rating;
               Rating.speed := Rating.speed rating;
               Rating.feedback := value;
               Rating.jobId := Rating.jobId rating |}.

(** The Submit button of the rating box: [disabled={!rating.jobId}],
    [onClick={submitRating}]. *)
Definition ratingSubmitButton (rating : Rating.t) : Button :=
  {| label := "Submit";
     disabled := falsy_number (Rating.jobId rating);
     onClick := submitRating rating |}.

(** *** Downloads *)

(** What a download handler does besides the effects of [Event]: it hands
    the fetched blob to the browser as a file, through an anchor element
    with a [download] attribute that it clicks and removes. *)
Inductive DownloadEvent :=
| Effect (e : Event)
| SaveAs (download : string).

(** The GET of a download, then [response.blob()] ([json] of the response
    stands for the body read as a blob), then the anchor; any failure goes
    to the [catch], which logs and alerts. *)
Definition download (url filename logMessage alertMessage : string)
    (answer : Outcome unit) : list DownloadEvent :=
  Effect (Fetch "GET" url None) ::
  match answer with
  | Resolved {| ok := true; json := Some _ |} => [ SaveAs filename ]
  | _ => [ Effect (ConsoleError logMessage); Effect (Alert alertMessage) ]
  end.





(** *** Executions *)

(** The closures a render hands to the event loop: the three polls, a
    whole tick, the command buttons, the two submissions and the form
    fields.  Each carries what its closure captured. *)
Inductive Action :=
| FetchPrinterStatus
| FetchJobs (currentJob : option Job.t)
| FetchLastValidCommand
| Tick
| SendCommand (endpoint successMessage : string)
| SubmitRating (rating : Rating.t)
| SubmitNextValidCommand (nextValidCommand : jsstring)
| ChangeNextValidCommand (value : jsstring)
| ChangeJobId (rating : Rating.t) (value : Z)
| ChangeQuality (rating : Rating.t) (value : string)
| ChangeSpeed (rating : Rating.t) (value : string)
| ChangeFeedback (rating : Rating.t) (value : string).

Definition perform (a : Action) : M unit :=
  match a with
  | FetchPrinterStatus => fetchPrinterStatus
  | FetchJobs currentJob => fetchJobs currentJob
  | FetchLastValidCommand => fetchLastValidCommand
  | Tick => tick
  | SendCommand endpoint successMessage => sendCommand endpoint successMessage
  | SubmitRating rating => submitRating rating
  | SubmitNextValidCommand nextValidCommand =>
      submitNextValidCommand nextValidCommand
  | ChangeNextValidCommand v => onChangeNextValidCommand v
  | ChangeJobId rating v => onChangeJobId rating v
  | ChangeQuality rating v => onChangeQuality rating v
  | ChangeSpeed rating v => onChangeSpeed rating v
  | ChangeFeedback rating v => onChangeFeedback rating v
  end.

(** The state after a history of the component: each step runs one closure
    to its end in the environment it meets. *)
Definition after (steps : list (Action * Env)) (s : State) : State :=
  fold_left (fun s step => state (snd (run (perform (fst step)) (snd step) s)))
    steps s.

(** Whether an event shows the user a notice, is a request, or is the
    reset message of the job poll. *)
Definition isAlert (e : Event) : bool :=
  match e with Alert _ => true | _ => false end.

Definition isFetch (e : Event) : bool :=
  match e with Fetch _ _ _ => true | _ => false end.

Definition isConsoleLog (e : Event) : bool :=
  match e with ConsoleLog _ => true | _ => false end.

(** A computation is framed when the trace it starts from only prefixes
    the trace it leaves: it reads no past event. *)
Definition framed {A} (m : M A) : Prop :=
  forall env s t,
    m env {| state := s; trace := t |}
    = (fst (run m env s),
       {| state := state (snd (run m env s));
          trace := t ++ trace (snd (run m env s)) |}).

(** A computation never throws when it returns normally in every
    environment and from every world. *)
Definition never_throws {A} (m : M A) : Prop :=
  forall env w, exists a, fst (m env w) = Return a.

(** What every state the component reaches satisfies: the current job is
    the first ongoing job of the job history; the temperature buffer holds
    at most 20 samples; and the buffer is empty while no printer status is
    loaded, and otherwise ends with a sample of the loaded status. *)
Definition consistent (s : State) : Prop :=
  currentJob s = find isOngoing (jobHistory s)
  /\ (List.length (temperatureData s) <= 20)%nat
  /\ match printerData s with
     | None => temperatureData s = []
     | Some data =>
         exists older time,
           temperatureData s
           = (older ++
              [ {| Sample.time := time;
                   Sample.nozzle := PrinterStatus.nozzle_temperature data;
                   Sample.bed := PrinterStatus.bed_temperature data |} ])%list
     end.

(** A short history: a tick that finds two unfinished jobs, a pause
    command, and an edit of the rating form. *)
Definition example_history : list (Action * Env) :=
  [ (Tick,
     backend_up (example_status 210 true false)
       [ example_job 2 "PAUSED" "2025-03-01T10:00:00Z" null;
         example_job 3 "STARTED" "2025-03-01T11:30:00Z" null ]);
    (SendCommand PAUSE_PRINT_API "Print paused.",
     backend_up (example_status 205 false true) []);
    (ChangeJobId (rating initialState) 3, backend_down) ].

(** * Theorems *)

(** ** Running handlers *)

(** Unfolds the monad under a handler, leaving the case analysis on what
    the environment answers. *)
Ltac step_handler :=
  cbv beta iota zeta delta
    [run try_catch bind ret throw fetch await_json emit modify ask when_
     alert console_error console_log
     setPrinterData setJobHistory setCurrentJob setTemperatureData
     setLastValidCommand setNextValidCommand setRating
     fst snd state trace ok json negb].

(** ** formatDuration *)

Example formatDuration_3661 : formatDuration (Some 3661) = "01:01:01".
Proof. reflexivity. Qed.

Example formatDuration_100h : formatDuration (Some 360000) = "100:00:00".
Proof. reflexivity. Qed.

Lemma to_uint_not_Nil (n : N) : N.to_uint n <> Decimal.Nil.
Proof.
  destruct n as [|p]; simpl; [discriminate|].
  intro H.
  pose proof (DecimalPos.Unsigned.of_to p) as E.
  rewrite H in E. discriminate E.
Qed.

Lemma toString_nonneg (n : Z) :
  0 <= n -> toString n = DecimalString.NilZero.string_of_uint (N.to_uint (Z.to_N n)).
Proof.
  intros H. unfold toString.
  destruct n as [|p|p]; try reflexivity. lia.
Qed.

Lemma decimal_value_toString (n : Z) :
  0 <= n -> decimal_value (toString n) = Some n.
Proof.
  intros H. rewrite toString_nonneg by assumption.
  unfold decimal_value.
  rewrite DecimalString.NilZero.usu by apply to_uint_not_Nil.
  unfold Z.of_uint. change (Pos.of_uint ?d) with (N.of_uint d).
  rewrite DecimalN.Unsigned.of_to. f_equal. lia.
Qed.

Lemma toString_not_empty (n : Z) : 0 <= n -> toString n <> "".
Proof.
  intros H E. pose proof (decimal_value_toString n H) as V.
  rewrite E in V. discriminate V.
Qed.

Lemma padStart2_cases (s : string) :
  s <> "" ->
  (2 <= String.length s)%nat /\ padStart 2 "0" s = s
  \/ String.length s = 1%nat /\ padStart 2 "0" s = String "0" s.
Proof.
  intros H. destruct s as [|a [|b s]]; [congruence| right | left]; simpl.
  - split; reflexivity.
  - split; [lia | reflexivity].
Qed.

Lemma decimal_value_zero_prefix (s : string) (n : Z) :
  decimal_value s = Some n -> decimal_value (String "0" s) = Some n.
Proof.
  unfold decimal_value.
  destruct s as [|a s]; [discriminate|].
  cbn [DecimalString.NilZero.uint_of_string DecimalString.NilEmpty.uint_of_string].
  destruct (DecimalString.uint_of_char a _) as [d|]; [|discriminate].
  intros E. cbn. exact E.
Qed.

(** A padded non-negative field reads back as the number it was made from
    and is at least two characters wide. *)
Lemma padded_field (n : Z) :
  0 <= n ->
  decimal_value (padStart 2 "0" (toString n)) = Some n
  /\ (2 <= String.length (padStart 2 "0" (toString n)))%nat.
Proof.
  intros H.
  destruct (padStart2_cases (toString n) (toString_not_empty n H))
    as [[L E] | [L E]]; rewrite E.
  - split; [apply decimal_value_toString; assumption | assumption].
  - split.
    + apply decimal_value_zero_prefix, decimal_value_toString; assumption.
    + simpl. lia.
Qed.

(** Minutes and seconds, being below 60, take exactly two characters. *)
Lemma padded_field_below_60 (n : Z) :
  0 <= n < 60 -> String.length (padStart 2 "0" (toString n)) = 2%nat.
Proof.
  intros H.
  assert (A : forallb two_wide (seq 0 60) = true) by (vm_compute; reflexivity).
  rewrite forallb_forall in A.
  specialize (A (Z.to_nat n)).
  unfold two_wide in A. rewrite Z2Nat.id in A by lia.
  apply Nat.eqb_eq, A, in_seq. lia.
Qed.

(** ** Control buttons *)

Example buttons_while_printing :
  map enabled (controlButtons (Some
    {| PrinterStatus.state := "Printing"; PrinterStatus.nozzle_temperature := 210;
       PrinterStatus.bed_temperature := 60; PrinterStatus.operational := true;
       PrinterStatus.printing := true; PrinterStatus.paused := false |}))
  = [true; true; false; true].
Proof. reflexivity. Qed.

Example buttons_while_paused :
  map enabled (controlButtons (Some
    {| PrinterStatus.state := "Paused"; PrinterStatus.nozzle_temperature := 210;
       PrinterStatus.bed_temperature := 60; PrinterStatus.operational := true;
       PrinterStatus.printing := false; PrinterStatus.paused := true |}))
  = [false; true; true; true].
Proof. reflexivity. Qed.

(** C6. Once a status is loaded the four control buttons are rendered, and
    whether each is enabled depends on the flags [printing] and [paused]
    alone: pause iff printing and not paused, preheat always, continue iff
    paused, cancel iff printing or paused.  So [(printing, paused) =
    (true, false)] enables pause and cancel and disables continue, and
    [(false, true)] enables continue and cancel and disables pause. *)
Theorem controlButtons_enabled (status : PrinterStatus.t) :
  map (fun b => (label b, enabled b)) (controlButtons (Some status))
  = [ ("Pause Print",
       PrinterStatus.printing status && negb (PrinterStatus.paused status));
      ("Preheat Nozzle", true);
      ("Continue Print", PrinterStatus.paused status);
      ("Cancel Print",
       PrinterStatus.printing status || PrinterStatus.paused status) ].
Proof.
  destruct status as [st nozzle bed op printing paused]; cbn.
  destruct printing, paused; reflexivity.
Qed.

(** ** Telemetry buffer *)

Lemma slice_last_rev {A} (n : nat) (l : list A) :
  slice_last n l = rev (firstn n (rev l)).
Proof.
  unfold slice_last. rewrite firstn_rev, rev_involutive. reflexivity.
Qed.

Lemma length_slice_last {A} (n : nat) (l : list A) :
  List.length (slice_last n l) = Nat.min n (List.length l).
Proof.
  unfold slice_last. rewrite length_skipn. lia.
Qed.

Lemma slice_last_short {A} (n : nat) (l : list A) :
  (List.length l <= n)%nat -> slice_last n l = l.
Proof.
  intros H. unfold slice_last.
  replace (List.length l - n)%nat with 0%nat by lia. reflexivity.
Qed.

(** Cutting a prefix down to its last [k] elements does not change the
    last [n] of the whole, as long as the cut leaves [n] elements. *)
Lemma slice_last_app_slice {A} (n k : nat) (l r : list A) :
  (n <= k + List.length r)%nat ->
  slice_last n (slice_last k l ++ r) = slice_last n (l ++ r).
Proof.
  intros H.
  rewrite (slice_last_rev n), (slice_last_rev n (l ++ r)), (slice_last_rev k).
  rewrite !rev_app_distr, rev_involutive, !firstn_app, firstn_firstn.
  rewrite length_rev.
  replace (Nat.min (n - List.length r) k) with (n - List.length r)%nat by lia.
  reflexivity.
Qed.

(** One printer-status poll: the buffer keeps its last 19 samples and gains
    the new one, or is left alone when the poll fails. *)
Lemma fetchPrinterStatus_temperatureData (env : Env) (s : State) :
  temperatureData (state (snd (run fetchPrinterStatus env s)))
  = match appended env with
    | [] => temperatureData s
    | sample => (slice_last 19 (temperatureData s) ++ sample)%list
    end.
Proof.
  unfold appended, fetchPrinterStatus. step_handler.
  destruct (printer_status env) as [|[[|] [data|]]]; reflexivity.
Qed.

Lemma pollPrinterStatus_window (envs : list Env) (s : State) :
  (List.length (temperatureData s) <= 20)%nat ->
  temperatureData (pollPrinterStatus envs s)
  = slice_last 20 (temperatureData s ++ flat_map appended envs).
Proof.
  revert s. induction envs as [|env envs IH]; intros s Hs.
  - cbn. rewrite app_nil_r. symmetry. apply slice_last_short, Hs.
  - cbn [pollPrinterStatus fold_left flat_map].
    fold (pollPrinterStatus envs (state (snd (run fetchPrinterStatus env s)))).
    pose proof (fetchPrinterStatus_temperatureData env s) as E.
    assert (L : (List.length (appended env) <= 1)%nat).
    { unfold appended.
      destruct (printer_status env) as [|[[|] [data|]]]; cbn; lia. }
    destruct (appended env) as [|sample rest] eqn:Ea.
    + rewrite IH by (rewrite E; exact Hs). rewrite E. reflexivity.
    + destruct rest; [|cbn in L; lia].
      rewrite IH.
      * rewrite E, <- app_assoc. apply slice_last_app_slice. cbn. lia.
      * rewrite E, length_app, length_slice_last. cbn [List.length]. lia.
Qed.

(** C4. Starting from the empty buffer of the first render, after any
    sequence of printer-status polls the buffer holds at most 20 samples,
    namely the last 20 of the samples appended so far, in the order they
    were appended; after 25 appends these are the samples 6 to 25. *)
Theorem temperatureData_rolling_window (envs : list Env) :
  (List.length (temperatureData (pollPrinterStatus envs initialState)) <= 20)%nat
  /\ temperatureData (pollPrinterStatus envs initialState)
     = slice_last 20 (flat_map appended envs)
  /\ (List.length (flat_map appended envs) = 25%nat ->
      temperatureData (pollPrinterStatus envs initialState)
      = skipn 5 (flat_map appended envs)
      /\ List.length (temperatureData (pollPrinterStatus envs initialState)) = 20%nat).
Proof.
  assert (E : temperatureData (pollPrinterStatus envs initialState)
              = slice_last 20 (flat_map appended envs)).
  { rewrite pollPrinterStatus_window by (cbn; lia). reflexivity. }
  rewrite E. repeat split.
  - rewrite length_slice_last. lia.
  - unfold slice_last. rewrite H. reflexivity.
  - rewrite length_slice_last, H. reflexivity.
Qed.

Lemma temperatureData_rolling_window_witness :
  temperatureData (pollPrinterStatus twenty_five_ticks initialState)
  = skipn 5 (flat_map appended twenty_five_ticks)
  /\ List.length (temperatureData (pollPrinterStatus twenty_five_ticks initialState))
     = 20%nat.
Proof.
  apply (proj2 (proj2 (temperatureData_rolling_window twenty_five_ticks))).
  reflexivity.
Defined.

(** ** Job reconciler *)

Lemma sort_insert_In {A} (compareFn : A -> A -> Z) (a x : A) (l : list A) :
  In x (sort_insert compareFn a l) <-> x = a \/ In x l.
Proof.
  induction l as [|b l IH]; cbn.
  - intuition congruence.
  - destruct (compareFn a b <=? 0); cbn; [intuition congruence|].
    rewrite IH. intuition congruence.
Qed.

(** Sorting keeps the elements. *)
Lemma sort_In {A} (compareFn : A -> A -> Z) (x : A) (l : list A) :
  In x (sort compareFn l) <-> In x l.
Proof.
  induction l as [|a l IH]; cbn; [tauto|].
  rewrite sort_insert_In, IH. intuition congruence.
Qed.

Section Newest_first.
Variable getTime : string -> option Z.

Local Abbreviation newest_first := (StronglySorted (not_older getTime)).
Local Abbreviation compareFn := (SortCompare (byStartTimeDesc getTime)).

Lemma dated_cons (a : Job.t) (l : list Job.t) :
  dated getTime (a :: l) ->
  getTime (Job.start_time a) <> None /\ dated getTime l.
Proof.
  intros H. split; [apply H; left; reflexivity|].
  intros x Hx. apply H. right. exact Hx.
Qed.

Lemma sort_insert_sorted (a : Job.t) (l : list Job.t) :
  getTime (Job.start_time a) <> None ->
  dated getTime l ->
  newest_first l ->
  newest_first (sort_insert compareFn a l).
Proof.
  intros Ha Hd H. induction H as [|b l Hl IH Hb]; cbn [sort_insert].
  - repeat constructor.
  - destruct (dated_cons b l Hd) as [Hbt Hd'].
    unfold SortCompare at 1. unfold byStartTimeDesc at 1.
    destruct (getTime (Job.start_time a)) as [ta|] eqn:Ea; [|congruence].
    destruct (getTime (Job.start_time b)) as [tb|] eqn:Eb; [|congruence].
    destruct (Z.leb_spec (tb - ta) 0) as [Hle|Hgt].
    + constructor; [constructor; assumption|].
      constructor; [unfold not_older; rewrite Ea, Eb; lia|].
      rewrite Forall_forall in Hb |- *. intros x Hx.
      specialize (Hb x Hx). unfold not_older in *. rewrite Ea. rewrite Eb in Hb.
      destruct (getTime (Job.start_time x)); [lia | contradiction].
    + constructor; [apply IH; assumption|].
      rewrite Forall_forall in Hb |- *. intros x Hx.
      apply sort_insert_In in Hx. destruct Hx as [->|Hx].
      * unfold not_older. rewrite Eb, Ea. lia.
      * apply Hb, Hx.
Qed.

Lemma sort_dated (l : list Job.t) :
  dated getTime l -> dated getTime (sort compareFn l).
Proof.
  intros H x Hx. apply H. apply sort_In in Hx. exact Hx.
Qed.

Lemma sort_sorted (l : list Job.t) :
  dated getTime l -> newest_first (sort compareFn l).
Proof.
  induction l as [|a l IH]; intros Hd; cbn; [constructor|].
  destruct (dated_cons a l Hd) as [Ha Hd'].
  apply sort_insert_sorted; [exact Ha | apply sort_dated, Hd' | apply IH, Hd'].
Qed.

(** In a list sorted newest first, the first job that passes a test did
    not start before any other job that passes it. *)
Lemma find_sorted_newest (p : Job.t -> bool) (l : list Job.t) (job : Job.t) :
  dated getTime l ->
  newest_first l ->
  find p l = Some job ->
  forall other, In other l -> p other = true -> not_older getTime job other.
Proof.
  intros Hd H. induction H as [|b l Hl IH Hb]; cbn; [discriminate|].
  destruct (dated_cons b l Hd) as [Hbt Hd'].
  intros Hfind other Hin Hp.
  destruct (p b) eqn:Eb.
  - injection Hfind as <-. destruct Hin as [<-|Hin].
    + unfold not_older. destruct (getTime (Job.start_time b)); [lia | congruence].
    + rewrite Forall_forall in Hb. apply Hb, Hin.
  - destruct Hin as [<-|Hin]; [congruence|].
    apply IH; assumption.
Qed.
End Newest_first.

(** What a job poll writes when the backend answers with a job list: the
    sorted list, and the first ongoing job of it, whatever job the closure
    had captured. *)
Lemma fetchJobs_resolved (env : Env) (captured : option Job.t) (s : State)
    (l : list Job.t) :
  jobs env = Resolved {| ok := true; json := Some l |} ->
  fst (run (fetchJobs captured) env s) = Return tt
  /\ state (snd (run (fetchJobs captured) env s))
     = {| printerData := printerData s;
          jobHistory := sort (SortCompare (byStartTimeDesc (getTime env))) l;
          currentJob := find isOngoing (sort (SortCompare (byStartTimeDesc (getTime env))) l);
          temperatureData := temperatureData s;
          lastValidCommand := lastValidCommand s;
          nextValidCommand := nextValidCommand s;
          rating := rating s |}.
Proof.
  intros H. unfold fetchJobs, find_first. step_handler. rewrite H. cbn iota.
  destruct (find isOngoing _) as [ongoing|] eqn:Eo; [split; reflexivity|].
  destruct captured as [tracked|]; [|split; reflexivity].
  destruct (isActiveStatus (Job.status tracked)); [|split; reflexivity].
  destruct (find (fun job => Job.id job =? _) _) as [updated|];
    [|split; reflexivity].
  destruct (isTerminalStatus (Job.status updated)); split; reflexivity.
Qed.

(** The trace of a job poll that finds no ongoing job while the closure
    tracks an active job that the list reports as finished or failed. *)
Lemma fetchJobs_trace_finished (env : Env) (tracked updated : Job.t) (s : State)
    (l : list Job.t) :
  jobs env = Resolved {| ok := true; json := Some l |} ->
  find isOngoing (sort (SortCompare (byStartTimeDesc (getTime env))) l) = None ->
  isActiveStatus (Job.status tracked) = true ->
  find (fun job => Job.id job =? Job.id tracked)
       (sort (SortCompare (byStartTimeDesc (getTime env))) l) = Some updated ->
  isTerminalStatus (Job.status updated) = true ->
  trace (snd (run (fetchJobs (Some tracked)) env s))
  = [ Fetch "GET" JOBS_API None;
      ConsoleLog "Print job completed! Resetting live metrics." ].
Proof.
  intros H Ho Ha Hu Ht. unfold fetchJobs, find_first. step_handler.
  rewrite H. cbn iota. rewrite Ho, Ha, Hu, Ht. reflexivity.
Qed.

(** A poll from a closure that tracks no job logs nothing. *)
Lemma fetchJobs_trace_untracked (env : Env) (s : State) (l : list Job.t) :
  jobs env = Resolved {| ok := true; json := Some l |} ->
  trace (snd (run (fetchJobs None) env s)) = [ Fetch "GET" JOBS_API None ].
Proof.
  intros H. unfold fetchJobs, find_first. step_handler. rewrite H. cbn iota.
  destruct (find isOngoing _); reflexivity.
Qed.

(** A poll that finds no ongoing job clears the current job, whatever job
    the closure tracks and whatever became of it in the list. *)
Lemma fetchJobs_no_ongoing (env : Env) (captured : option Job.t) (s : State)
    (l : list Job.t) :
  jobs env = Resolved {| ok := true; json := Some l |} ->
  (forall job, In job l -> isOngoing job = false) ->
  find isOngoing (sort (SortCompare (byStartTimeDesc (getTime env))) l) = None
  /\ currentJob (state (snd (run (fetchJobs captured) env s))) = None.
Proof.
  intros H Hn.
  assert (E : find isOngoing (sort (SortCompare (byStartTimeDesc (getTime env))) l) = None).
  { destruct (find isOngoing _) as [job|] eqn:Ef; [|reflexivity].
    apply find_some in Ef. destruct Ef as [Hin Hp].
    apply sort_In in Hin. rewrite (Hn job Hin) in Hp. discriminate Hp. }
  split; [exact E|].
  destruct (fetchJobs_resolved env captured s l H) as [_ ->]. exact E.
Qed.

(** C1, as the code has it. When a job poll succeeds, the job it makes
    current is a job of the fetched list with an active status (STARTED,
    RESUMED or PAUSED) and an [end_time] that is [null]; when the list has
    no such job, no job is made current; and when every [start_time] of the
    list parses as a date, no such job of the list started later than the
    one made current.  A job whose [end_time] field is missing is never
    selected: the test is [end_time === null]. *)
Theorem fetchJobs_selects_newest_ongoing (env : Env) (captured : option Job.t)
    (s : State) (l : list Job.t) :
  jobs env = Resolved {| ok := true; json := Some l |} ->
  match currentJob (state (snd (run (fetchJobs captured) env s))) with
  | Some job => In job l /\ isOngoing job = true
  | None => forall other, In other l -> isOngoing other = false
  end
  /\ (dated (getTime env) l ->
      selects_newest isOngoing env l
        (currentJob (state (snd (run (fetchJobs captured) env s))))).
Proof.
  intros H.
  destruct (fetchJobs_resolved env captured s l H) as [_ ->].
  cbn [currentJob]. unfold selects_newest.
  destruct (find isOngoing _) as [job|] eqn:Ef.
  - pose proof (find_some _ _ Ef) as [Hin Hp].
    assert (Hl : In job l) by (apply sort_In in Hin; exact Hin).
    split; [split; assumption|]. intros Hd.
    split; [exact Hl|]. split; [exact Hp|].
    intros other Ho Hpo.
    apply (find_sorted_newest (getTime env) isOngoing _ job
             (sort_dated (getTime env) l Hd)
             (sort_sorted (getTime env) l Hd) Ef other); [|exact Hpo].
    apply sort_In, Ho.
  - assert (N : forall other, In other l -> isOngoing other = false).
    { intros other Ho. apply (find_none _ _ Ef). apply sort_In, Ho. }
    split; [exact N | intros _; exact N].
Qed.

Lemma fetchJobs_selects_newest_ongoing_witness :
  selects_newest isOngoing
    (backend_up (example_status 210 true false)
       [ example_job 1 "FINISHED" "2025-03-01T09:00:00Z" (value "2025-03-01T09:40:00Z");
         example_job 2 "PAUSED" "2025-03-01T10:00:00Z" null;
         example_job 3 "STARTED" "2025-03-01T11:30:00Z" null ])
    [ example_job 1 "FINISHED" "2025-03-01T09:00:00Z" (value "2025-03-01T09:40:00Z");
      example_job 2 "PAUSED" "2025-03-01T10:00:00Z" null;
      example_job 3 "STARTED" "2025-03-01T11:30:00Z" null ]
    (currentJob (state (snd (run (fetchJobs None)
       (backend_up (example_status 210 true false)
          [ example_job 1 "FINISHED" "2025-03-01T09:00:00Z" (value "2025-03-01T09:40:00Z");
            example_job 2 "PAUSED" "2025-03-01T10:00:00Z" null;
            example_job 3 "STARTED" "2025-03-01T11:30:00Z" null ])
       initialState)))).
Proof.
  apply (proj2 (fetchJobs_selects_newest_ongoing
                  (backend_up (example_status 210 true false) _) None
                  initialState _ eq_refl)).
  intros job [<-|[<-|[<-|[]]]]; discriminate.
Defined.

Example fetchJobs_picks_job_3 :
  option_map Job.id
    (currentJob (state (snd (run (fetchJobs None)
       (backend_up (example_status 210 true false)
          [ example_job 1 "FINISHED" "2025-03-01T09:00:00Z" (value "2025-03-01T09:40:00Z");
            example_job 2 "PAUSED" "2025-03-01T10:00:00Z" null;
            example_job 3 "STARTED" "2025-03-01T11:30:00Z" null ])
       initialState))))
  = Some 3.
Proof. reflexivity. Qed.

(** A fetched list in which job 1 has a [start_time] that is no date: the
    comparator returns [NaN] wherever job 1 is compared, the list keeps its
    order, and the poll makes job 2 current although job 3 is ongoing and
    started later. *)
Example fetchJobs_unparsable_start_time :
  map Job.id
    (jobHistory (state (snd (run (fetchJobs None)
       (backend_up (example_status 210 true false)
          [ example_job 2 "PAUSED" "2025-03-01T10:00:00Z" null;
            example_job 1 "FINISHED" "not a date" (value "2025-03-01T09:40:00Z");
            example_job 3 "STARTED" "2025-03-01T11:30:00Z" null ])
       initialState))))
  = [2; 1; 3]
  /\ option_map Job.id
       (currentJob (state (snd (run (fetchJobs None)
          (backend_up (example_status 210 true false)
             [ example_job 2 "PAUSED" "2025-03-01T10:00:00Z" null;
               example_job 1 "FINISHED" "not a date" (value "2025-03-01T09:40:00Z");
               example_job 3 "STARTED" "2025-03-01T11:30:00Z" null ])
          initialState))))
     = Some 2.
Proof. split; reflexivity. Qed.

(** C1, as the specification words it, fails twice. A STARTED job whose
    [end_time] field is missing has an active status and no end time, and
    the poll selects no job. And in a list with a [start_time] that is no
    date the poll selects job 2 although job 3, as active and as much
    without end time, started later. *)
Lemma fetchJobs_skips_missing_end_time :
  ~ selects_newest activeWithoutEndTime
      (backend_up (example_status 210 true false)
         [ example_job 1 "STARTED" "2025-03-01T10:00:00Z" undefined ])
      [ example_job 1 "STARTED" "2025-03-01T10:00:00Z" undefined ]
      (currentJob (state (snd (run (fetchJobs None)
         (backend_up (example_status 210 true false)
            [ example_job 1 "STARTED" "2025-03-01T10:00:00Z" undefined ])
         initialState))))
  /\ ~ selects_newest activeWithoutEndTime
        (backend_up (example_status 210 true false)
           [ example_job 2 "PAUSED" "2025-03-01T10:00:00Z" null;
             example_job 1 "FINISHED" "not a date" (value "2025-03-01T09:40:00Z");
             example_job 3 "STARTED" "2025-03-01T11:30:00Z" null ])
        [ example_job 2 "PAUSED" "2025-03-01T10:00:00Z" null;
          example_job 1 "FINISHED" "not a date" (value "2025-03-01T09:40:00Z");
          example_job 3 "STARTED" "2025-03-01T11:30:00Z" null ]
        (currentJob (state (snd (run (fetchJobs None)
           (backend_up (example_status 210 true false)
              [ example_job 2 "PAUSED" "2025-03-01T10:00:00Z" null;
                example_job 1 "FINISHED" "not a date" (value "2025-03-01T09:40:00Z");
                example_job 3 "STARTED" "2025-03-01T11:30:00Z" null ])
           initialState)))).
Proof.
  split.
  - intros H. cbn in H.
    specialize (H _ (or_introl eq_refl)). discriminate H.
  - intros H. cbn in H. destruct H as (_ & _ & H).
    specialize (H (example_job 3 "STARTED" "2025-03-01T11:30:00Z" null)
                  (or_intror (or_intror (or_introl eq_refl))) eq_refl).
    cbn in H. lia.
Qed.

(** C2 fails on the code. The component tracks job 7, which is STARTED; a
    poll answers with an empty list, so the job has not been reported as
    finished or failed; and the poll leaves no current job. *)
Theorem fetchJobs_empty_list_drops_tracked_job :
  currentJob (tracking (example_job 7 "STARTED" "2025-03-01T10:00:00Z" null))
  = Some (example_job 7 "STARTED" "2025-03-01T10:00:00Z" null)
  /\ isActiveStatus (Job.status (example_job 7 "STARTED" "2025-03-01T10:00:00Z" null))
     = true
  /\ currentJob (state (snd (run
       (fetchJobs (Some (example_job 7 "STARTED" "2025-03-01T10:00:00Z" null)))
       (backend_up (example_status 210 true false) [])
       (tracking (example_job 7 "STARTED" "2025-03-01T10:00:00Z" null)))))
     = None.
Proof. repeat split. Qed.

(** ** Failed polls *)

(** C5, as the code has it. A failed background poll returns normally and
    shows no alert. A failed printer-status or job-list poll only logs to
    the console and leaves the whole state as it was. A failed
    last-valid-command poll logs to the console and replaces
    [lastValidCommand] by the text "Error fetching command.", leaving the
    other slices as they were. *)
Theorem failed_poll_effects (env : Env) (s : State) :
  (failed (printer_status env) = true ->
   run fetchPrinterStatus env s
   = (Return tt,
      {| state := s;
         trace := [ Fetch "GET" PRINTER_STATUS_API None;
                    ConsoleError "Error fetching printer status:" ] |}))
  /\ (forall captured, failed (jobs env) = true ->
      run (fetchJobs captured) env s
      = (Return tt,
         {| state := s;
            trace := [ Fetch "GET" JOBS_API None;
                       ConsoleError "Error fetching jobs:" ] |}))
  /\ (failed (last_valid env) = true ->
      run fetchLastValidCommand env s
      = (Return tt,
         {| state :=
              {| printerData := printerData s;
                 jobHistory := jobHistory s;
                 currentJob := currentJob s;
                 temperatureData := temperatureData s;
                 lastValidCommand := Some "Error fetching command.";
                 nextValidCommand := nextValidCommand s;
                 rating := rating s |};
            trace := [ Fetch "GET" LAST_VALID_API None;
                       ConsoleError "Error fetching last valid command:" ] |})).
Proof.
  destruct s as [pd jh cj td lv nv rt].
  repeat split.
  - unfold fetchPrinterStatus. step_handler.
    destruct (printer_status env) as [|[[|] [data|]]]; cbn;
      intros F; try discriminate F; reflexivity.
  - intros captured. unfold fetchJobs. step_handler.
    destruct (jobs env) as [|[[|] [data|]]]; cbn;
      intros F; try discriminate F; reflexivity.
  - unfold fetchLastValidCommand. step_handler.
    destruct (last_valid env) as [|[[|] [data|]]]; cbn;
      intros F; try discriminate F; reflexivity.
Qed.

Lemma failed_poll_effects_witness :
  run fetchPrinterStatus backend_down (tracking (example_job 7 "STARTED" "2025-03-01T10:00:00Z" null))
  = (Return tt,
     {| state := tracking (example_job 7 "STARTED" "2025-03-01T10:00:00Z" null);
        trace := [ Fetch "GET" PRINTER_STATUS_API None;
                   ConsoleError "Error fetching printer status:" ] |})
  /\ run (fetchJobs None) backend_failing (tracking (example_job 7 "STARTED" "2025-03-01T10:00:00Z" null))
     = (Return tt,
        {| state := tracking (example_job 7 "STARTED" "2025-03-01T10:00:00Z" null);
           trace := [ Fetch "GET" JOBS_API None;
                      ConsoleError "Error fetching jobs:" ] |})
  /\ lastValidCommand (state (snd (run fetchLastValidCommand backend_failing (typed []))))
     = Some "Error fetching command.".
Proof.
  split; [|split].
  - apply (proj1 (failed_poll_effects backend_down _)). reflexivity.
  - apply (proj1 (proj2 (failed_poll_effects backend_failing _))). reflexivity.
  - rewrite (proj2 (proj2 (failed_poll_effects backend_failing (typed []))) eq_refl).
    reflexivity.
Defined.

(** C5, as the specification words it, fails: with the backend down, the
    last-valid-command poll changes the [lastValidCommand] slice. *)
Lemma fetchLastValidCommand_failure_changes_state :
  failed (last_valid backend_down) = true
  /\ state (snd (run fetchLastValidCommand backend_down (typed []))) <> typed []
  /\ lastValidCommand (state (snd (run fetchLastValidCommand backend_down (typed []))))
     = Some "Error fetching command.".
Proof.
  split; [reflexivity|]. split; [|reflexivity].
  intros E. apply (f_equal lastValidCommand) in E. discriminate E.
Qed.

(** ** Command dispatcher *)

(** C9. When the POST of a command (pause among them) is rejected or
    answered with a non-success status, [sendCommand] returns normally,
    leaves the whole state, [printerData] included, as it was, logs the
    error and shows the alert "Command failed. Check logs.". *)
Theorem sendCommand_failure (env : Env) (s : State)
    (endpoint successMessage : string) :
  post_failed (post env endpoint None) = true ->
  run (sendCommand endpoint successMessage) env s
  = (Return tt,
     {| state := s;
        trace := [ Fetch "POST" endpoint None;
                   ConsoleError "Error sending command:";
                   Alert "Command failed. Check logs." ] |}).
Proof.
  unfold sendCommand. step_handler.
  destruct (post env endpoint None) as [|[[|] body]]; cbn;
    intros F; try discriminate F; reflexivity.
Qed.

Lemma sendCommand_failure_witness :
  run (sendCommand PAUSE_PRINT_API "Print paused.") backend_failing (typed [])
  = (Return tt,
     {| state := typed [];
        trace := [ Fetch "POST" PAUSE_PRINT_API None;
                   ConsoleError "Error sending command:";
                   Alert "Command failed. Check logs." ] |})
  /\ run (sendCommand PAUSE_PRINT_API "Print paused.") backend_down (typed [])
     = (Return tt,
        {| state := typed [];
           trace := [ Fetch "POST" PAUSE_PRINT_API None;
                      ConsoleError "Error sending command:";
                      Alert "Command failed. Check logs." ] |}).
Proof.
  split; apply sendCommand_failure; reflexivity.
Defined.

(** ** Rating submission *)

Example submitRating_job_0 :
  run (submitRating (rating (rating_draft (Some 0))))
      (backend_up (example_status 210 false false) []) (rating_draft (Some 0))
  = (Return tt, {| state := rating_draft (Some 0);
                   trace := [ Alert "No job selected for rating." ] |}).
Proof. reflexivity. Qed.

(** C8. Submitting the rating of the current render while its [jobId] is
    [null] sends no request, leaves the state as it was and shows the alert
    "No job selected for rating.". With a job selected (an id other than 0,
    which [!rating.jobId] takes for no job) and the POST answered with a
    success status, the submission shows the success alert and resets
    quality, speed and feedback to the empty string, keeping [jobId] and
    every other slice. *)
Theorem submitRating_spec (env : Env) (s : State) :
  (Rating.jobId (rating s) = None ->
   run (submitRating (rating s)) env s
   = (Return tt,
      {| state := s; trace := [ Alert "No job selected for rating." ] |}))
  /\ (forall jobId : Z,
      Rating.jobId (rating s) = Some jobId ->
      jobId <> 0 ->
      post_failed
        (post env RATE_PRINT_API
           (Some (RatingPayload jobId (Rating.quality (rating s))
                    (Rating.speed (rating s)) (Rating.feedback (rating s)))))
      = false ->
      run (submitRating (rating s)) env s
      = (Return tt,
         {| state :=
              {| printerData := printerData s;
                 jobHistory := jobHistory s;
                 currentJob := currentJob s;
                 temperatureData := temperatureData s;
                 lastValidCommand := lastValidCommand s;
                 nextValidCommand := nextValidCommand s;
                 rating := {| Rating.quality := ""; Rating.speed := "";
                              Rating.feedback := "";
                              Rating.jobId := Rating.jobId (rating s) |} |};
            trace :=
              [ Fetch "POST" RATE_PRINT_API
                  (Some (RatingPayload jobId (Rating.quality (rating s))
                           (Rating.speed (rating s)) (Rating.feedback (rating s))));
                Alert "Print rating submitted successfully!" ] |})).
Proof.
  split.
  - intros H. unfold submitRating. rewrite H. reflexivity.
  - intros jobId H Hnz. unfold submitRating. rewrite H.
    cbn [falsy_number]. destruct (Z.eqb_spec jobId 0) as [E|_]; [contradiction|].
    step_handler.
    destruct (post env RATE_PRINT_API _) as [|[[|] body]]; cbn;
      intros F; try discriminate F.
    reflexivity.
Qed.

Lemma submitRating_spec_witness :
  run (submitRating (rating (rating_draft None)))
      (backend_up (example_status 210 false false) []) (rating_draft None)
  = (Return tt,
     {| state := rating_draft None;
        trace := [ Alert "No job selected for rating." ] |})
  /\ rating (state (snd (run (submitRating (rating (rating_draft (Some 7))))
       (backend_up (example_status 210 false false) []) (rating_draft (Some 7)))))
     = {| Rating.quality := ""; Rating.speed := ""; Rating.feedback := "";
          Rating.jobId := Some 7 |}.
Proof.
  split.
  - apply (proj1 (submitRating_spec _ (rating_draft None))). reflexivity.
  - rewrite (proj2 (submitRating_spec
               (backend_up (example_status 210 false false) [])
               (rating_draft (Some 7))) 7 eq_refl ltac:(discriminate) eq_refl).
    reflexivity.
Defined.

(** ** Next valid command *)

Lemma trimStart_head (s : jsstring) :
  trimStart s = []
  \/ exists c rest, trimStart s = c :: rest /\ isWhiteSpace c = false.
Proof.
  induction s as [|c s IH]; cbn; [left; reflexivity|].
  destruct (isWhiteSpace c) eqn:E; [exact IH|].
  right. exists c, s. split; [reflexivity | exact E].
Qed.

Lemma trimStart_nil (s : jsstring) :
  trimStart s = [] <-> forallb isWhiteSpace s = true.
Proof.
  induction s as [|c s IH]; cbn; [tauto|].
  destruct (isWhiteSpace c); cbn; [exact IH|].
  split; discriminate.
Qed.

(** [trim] leaves nothing exactly when every code unit is white space. *)
Lemma trim_nil (s : jsstring) :
  trim s = [] <-> forallb isWhiteSpace s = true.
Proof.
  unfold trim, trimEnd. split.
  - intros H. apply trimStart_nil.
    destruct (trimStart_head s) as [E|(c & rest & E & Hc)]; [exact E|].
    exfalso. rewrite E in H.
    apply (f_equal (@rev code_unit)) in H. rewrite rev_involutive in H.
    cbn [rev] in H. apply trimStart_nil in H.
    rewrite forallb_app in H. apply andb_true_iff in H. destruct H as [_ H].
    cbn in H. rewrite Hc in H. discriminate H.
  - intros H. apply trimStart_nil in H. rewrite H. reflexivity.
Qed.

Example trim_keeps_inner_spaces :
  trim [32; 71; 50; 56; 32; 88; 9; 10]%N = [71; 50; 56; 32; 88]%N.
Proof. reflexivity. Qed.

(** C10. Submitting the next valid command of the current render when it
    is empty or all white space sends no request, leaves the state as it
    was and shows the alert "Please enter a valid command.". Otherwise one
    POST is sent; when it fails the state is left as it was and only after
    it succeeds is the input reset to the empty string. *)
Theorem submitNextValidCommand_spec (env : Env) (s : State) :
  (forallb isWhiteSpace (nextValidCommand s) = true ->
   run (submitNextValidCommand (nextValidCommand s)) env s
   = (Return tt,
      {| state := s; trace := [ Alert "Please enter a valid command." ] |}))
  /\ (forallb isWhiteSpace (nextValidCommand s) = false ->
      post_failed
        (post env NEXT_VALID_API (Some (CommandPayload (nextValidCommand s))))
      = true ->
      run (submitNextValidCommand (nextValidCommand s)) env s
      = (Return tt,
         {| state := s;
            trace :=
              [ Fetch "POST" NEXT_VALID_API
                  (Some (CommandPayload (nextValidCommand s)));
                ConsoleError "Error submitting next valid command:";
                Alert "Failed to submit next valid command." ] |}))
  /\ (forallb isWhiteSpace (nextValidCommand s) = false ->
      post_failed
        (post env NEXT_VALID_API (Some (CommandPayload (nextValidCommand s))))
      = false ->
      run (submitNextValidCommand (nextValidCommand s)) env s
      = (Return tt,
         {| state :=
              {| printerData := printerData s;
                 jobHistory := jobHistory s;
                 currentJob := currentJob s;
                 temperatureData := temperatureData s;
                 lastValidCommand := lastValidCommand s;
                 nextValidCommand := [];
                 rating := rating s |};
            trace :=
              [ Fetch "POST" NEXT_VALID_API
                  (Some (CommandPayload (nextValidCommand s)));
                Alert "Next valid command submitted successfully!" ] |})).
Proof.
  assert (N : forallb isWhiteSpace (nextValidCommand s) = false ->
              exists c rest, trim (nextValidCommand s) = c :: rest).
  { intros H. destruct (trim (nextValidCommand s)) as [|c rest] eqn:E.
    - apply trim_nil in E. congruence.
    - exists c, rest. reflexivity. }
  destruct s as [pd jh cj td lv nv rt]. cbn [nextValidCommand] in *.
  split; [|split].
  - intros H. apply trim_nil in H. unfold submitNextValidCommand.
    rewrite H. reflexivity.
  - intros H. destruct (N H) as (c & rest & E).
    unfold submitNextValidCommand. rewrite E. step_handler.
    destruct (post env NEXT_VALID_API _) as [|[[|] body]]; cbn;
      intros F; try discriminate F; reflexivity.
  - intros H. destruct (N H) as (c & rest & E).
    unfold submitNextValidCommand. rewrite E. step_handler.
    destruct (post env NEXT_VALID_API _) as [|[[|] body]]; cbn;
      intros F; try discriminate F; reflexivity.
Qed.

Lemma submitNextValidCommand_spec_witness :
  run (submitNextValidCommand (nextValidCommand (typed [32; 9; 160]%N)))
      (backend_up (example_status 210 false true) []) (typed [32; 9; 160]%N)
  = (Return tt,
     {| state := typed [32; 9; 160]%N;
        trace := [ Alert "Please enter a valid command." ] |})
  /\ state (snd (run (submitNextValidCommand (nextValidCommand (typed [71; 50; 56]%N)))
       backend_failing (typed [71; 50; 56]%N)))
     = typed [71; 50; 56]%N
  /\ state (snd (run (submitNextValidCommand (nextValidCommand (typed [71; 50; 56]%N)))
       (backend_up (example_status 210 false true) []) (typed [71; 50; 56]%N)))
     = typed [].
Proof.
  split; [|split].
  - apply (proj1 (submitNextValidCommand_spec _ (typed [32; 9; 160]%N))).
    reflexivity.
  - rewrite (proj1 (proj2 (submitNextValidCommand_spec backend_failing
               (typed [71; 50; 56]%N))) eq_refl eq_refl).
    reflexivity.
  - rewrite (proj2 (proj2 (submitNextValidCommand_spec
               (backend_up (example_status 210 false true) [])
               (typed [71; 50; 56]%N))) eq_refl eq_refl).
    reflexivity.
Defined.

(** ** A whole tick *)

(** With the backend down, a tick sends its three requests, logs three
    errors, shows no alert and changes only [lastValidCommand]. *)
Example tick_backend_down :
  run tick backend_down initialState
  = (Return tt,
     {| state :=
          {| printerData := None; jobHistory := []; currentJob := None;
             temperatureData := [];
             lastValidCommand := Some "Error fetching command.";
             nextValidCommand := []; rating := rating initialState |};
        trace :=
          [ Fetch "GET" PRINTER_STATUS_API None;
            ConsoleError "Error fetching printer status:";
            Fetch "GET" JOBS_API None;
            ConsoleError "Error fetching jobs:";
            Fetch "GET" LAST_VALID_API None;
            ConsoleError "Error fetching last valid command:" ] |}).
Proof. reflexivity. Qed.

(** * Further properties *)

(** ** The structure of runs *)

Lemma framed_ret {A} (a : A) : framed (ret a).
Proof. intros env s t. cbn. rewrite app_nil_r. reflexivity. Qed.

Lemma framed_throw {A} (e : string) : framed (@throw A e).
Proof. intros env s t. cbn. rewrite app_nil_r. reflexivity. Qed.

Lemma framed_emit (e : Event) : framed (emit e).
Proof. intros env s t. reflexivity. Qed.

Lemma framed_modify (f : State -> State) : framed (modify f).
Proof. intros env s t. cbn. rewrite app_nil_r. reflexivity. Qed.

Lemma framed_ask {A} (field : Env -> A) : framed (ask field).
Proof. intros env s t. cbn. rewrite app_nil_r. reflexivity. Qed.

Lemma framed_bind {A B} (m : M A) (k : A -> M B) :
  framed m -> (forall a, framed (k a)) -> framed (bind m k).
Proof.
  intros Hm Hk env s t. unfold run, bind.
  rewrite (Hm env s t), (Hm env s []). cbn [app].
  destruct (run m env s) as [[a|e] [s1 t1]]; cbn [fst snd state trace].
  - rewrite (Hk a env s1 (t ++ t1)%list), (Hk a env s1 t1). cbn [fst snd state trace].
    rewrite app_assoc. reflexivity.
  - reflexivity.
Qed.

Lemma framed_try_catch {A} (body : M A) (handler : string -> M A) :
  framed body -> (forall e, framed (handler e)) -> framed (try_catch body handler).
Proof.
  intros Hm Hk env s t. unfold run, try_catch.
  rewrite (Hm env s t), (Hm env s []). cbn [app].
  destruct (run body env s) as [[a|e] [s1 t1]]; cbn [fst snd state trace].
  - reflexivity.
  - rewrite (Hk e env s1 (t ++ t1)%list), (Hk e env s1 t1). cbn [fst snd state trace].
    rewrite app_assoc. reflexivity.
Qed.

(** Solves [framed m] for a computation written with the monad. *)
Ltac framed_tac :=
  repeat first
    [ apply framed_bind | apply framed_try_catch | apply framed_ret
    | apply framed_throw | apply framed_emit | apply framed_modify
    | apply framed_ask
    | match goal with
      | |- forall _, _ => intro
      | |- framed (match ?x with _ => _ end) => destruct x
      | |- framed ?m => progress unfold fetch, await_json, when_, alert,
          console_error, console_log, setPrinterData, setJobHistory,
          setCurrentJob, setTemperatureData, setLastValidCommand,
          setNextValidCommand, setRating
      end ].

Lemma framed_fetchPrinterStatus : framed fetchPrinterStatus.
Proof. unfold fetchPrinterStatus. framed_tac. Qed.

Lemma framed_fetchJobs (captured : option Job.t) : framed (fetchJobs captured).
Proof. unfold fetchJobs, find_first. framed_tac. Qed.

Lemma framed_fetchLastValidCommand : framed fetchLastValidCommand.
Proof. unfold fetchLastValidCommand. framed_tac. Qed.

Lemma framed_sendCommand (endpoint successMessage : string) :
  framed (sendCommand endpoint successMessage).
Proof.
  unfold sendCommand. framed_tac.
Qed.

Lemma framed_tick : framed tick.
Proof.
  unfold tick. apply framed_bind; [apply framed_fetchPrinterStatus|intros _].
  apply framed_bind; [apply framed_fetchJobs|intros _].
  apply framed_fetchLastValidCommand.
Qed.

Lemma never_throws_emit (e : Event) : never_throws (emit e).
Proof. intros env w. exists tt. reflexivity. Qed.

Lemma never_throws_modify (f : State -> State) : never_throws (modify f).
Proof. intros env w. exists tt. reflexivity. Qed.

Lemma never_throws_bind {A B} (m : M A) (k : A -> M B) :
  never_throws m -> (forall a, never_throws (k a)) -> never_throws (bind m k).
Proof.
  intros Hm Hk env w. unfold bind.
  destruct (Hm env w) as [a Ha].
  destruct (m env w) as [r w1]. cbn in Ha. subst r. apply Hk.
Qed.

(** A [try] whose [catch] cannot throw cannot throw. *)
Lemma never_throws_try_catch {A} (body : M A) (handler : string -> M A) :
  (forall e, never_throws (handler e)) -> never_throws (try_catch body handler).
Proof.
  intros Hk env w. unfold try_catch.
  destruct (body env w) as [[a|e] w1].
  - exists a. reflexivity.
  - apply Hk.
Qed.

Ltac never_throws_tac :=
  repeat first
    [ apply never_throws_try_catch | apply never_throws_bind
    | apply never_throws_emit | apply never_throws_modify
    | match goal with
      | |- forall _, _ => intro
      | |- never_throws (match ?x with _ => _ end) => destruct x
      | |- never_throws ?m => progress unfold alert, console_error,
          console_log, setLastValidCommand, setNextValidCommand, setRating
      end ].

Lemma never_throws_fetchPrinterStatus : never_throws fetchPrinterStatus.
Proof. unfold fetchPrinterStatus. never_throws_tac. Qed.

Lemma never_throws_fetchJobs (captured : option Job.t) :
  never_throws (fetchJobs captured).
Proof. unfold fetchJobs. never_throws_tac. Qed.

Lemma never_throws_fetchLastValidCommand : never_throws fetchLastValidCommand.
Proof. unfold fetchLastValidCommand. never_throws_tac. Qed.

Lemma never_throws_perform (a : Action) : never_throws (perform a).
Proof.
  destruct a; cbn [perform];
    unfold tick, sendCommand, submitRating, submitNextValidCommand,
      onChangeNextValidCommand, onChangeJobId, onChangeQuality,
      onChangeSpeed, onChangeFeedback;
    try apply never_throws_fetchPrinterStatus;
    try apply never_throws_fetchJobs;
    try apply never_throws_fetchLastValidCommand;
    never_throws_tac;
    first [ apply never_throws_fetchPrinterStatus | apply never_throws_fetchJobs
          | apply never_throws_fetchLastValidCommand ].
Qed.

Lemma run_returns {A} (m : M A) (env : Env) (s : State) :
  never_throws m -> exists a, fst (run m env s) = Return a.
Proof. intros H. apply H. Qed.

(** Running [m] and then [k] from a state is running [m] from it and [k]
    from the state [m] leaves, the traces put end to end. *)
Lemma run_bind {A B} (m : M A) (k : A -> M B) (env : Env) (s : State) (a : A) :
  (forall a, framed (k a)) ->
  fst (run m env s) = Return a ->
  run (bind m k) env s
  = (fst (run (k a) env (state (snd (run m env s)))),
     {| state := state (snd (run (k a) env (state (snd (run m env s)))));
        trace := trace (snd (run m env s))
                 ++ trace (snd (run (k a) env (state (snd (run m env s))))) |}).
Proof.
  intros Hk Ha. unfold run at 1. unfold bind.
  fold (run m env s). destruct (run m env s) as [r [s1 t1]].
  cbn in Ha. subst r. cbn [fst snd state trace]. apply Hk.
Qed.

(** A tick is its three polls one after the other, the job poll from a
    closure that tracks no job. *)
Lemma tick_run (env : Env) (s : State) :
  run tick env s
  = (Return tt,
     {| state :=
          state (snd (run fetchLastValidCommand env
            (state (snd (run (fetchJobs None) env
              (state (snd (run fetchPrinterStatus env s)))))))) ;
        trace :=
          trace (snd (run fetchPrinterStatus env s))
          ++ trace (snd (run (fetchJobs None) env
               (state (snd (run fetchPrinterStatus env s)))))
          ++ trace (snd (run fetchLastValidCommand env
               (state (snd (run (fetchJobs None) env
                 (state (snd (run fetchPrinterStatus env s)))))))) |}).
Proof.
  destruct (run_returns fetchPrinterStatus env s never_throws_fetchPrinterStatus)
    as [[] H1].
  unfold tick.
  rewrite (run_bind _ _ env s tt);
    [|intros _; apply framed_bind;
      [apply framed_fetchJobs|intros _; apply framed_fetchLastValidCommand]
     |exact H1].
  set (s1 := state (snd (run fetchPrinterStatus env s))).
  destruct (run_returns (fetchJobs None) env s1 (never_throws_fetchJobs None))
    as [[] H2].
  change (currentJob initialState) with (@None Job.t).
  rewrite (run_bind _ _ env s1 tt);
    [|intro; apply framed_fetchLastValidCommand|exact H2].
  set (s2 := state (snd (run (fetchJobs None) env s1))).
  destruct (run_returns fetchLastValidCommand env s2
              never_throws_fetchLastValidCommand) as [[] H3].
  cbn [state trace]. rewrite H3. reflexivity.
Qed.

(** ** What each handler writes *)

Lemma failed_false {A} (outcome : Outcome A) :
  failed outcome = false ->
  exists data, outcome = Resolved {| ok := true; json := Some data |}.
Proof.
  destruct outcome as [|[[|] [data|]]]; cbn; try discriminate.
  intros _. exists data. reflexivity.
Qed.

Lemma fetchPrinterStatus_run (env : Env) (s : State) :
  run fetchPrinterStatus env s
  = match printer_status env with
    | Resolved {| ok := true; json := Some data |} =>
        (Return tt,
         {| state :=
              {| printerData := Some data;
                 jobHistory := jobHistory s;
                 currentJob := currentJob s;
                 temperatureData :=
                   (slice_last 19 (temperatureData s) ++
                    [ {| Sample.time := toLocaleTimeString env;
                         Sample.nozzle := PrinterStatus.nozzle_temperature data;
                         Sample.bed := PrinterStatus.bed_temperature data |} ])%list;
                 lastValidCommand := lastValidCommand s;
                 nextValidCommand := nextValidCommand s;
                 rating := rating s |};
            trace := [ Fetch "GET" PRINTER_STATUS_API None ] |})
    | _ =>
        (Return tt,
         {| state := s;
            trace := [ Fetch "GET" PRINTER_STATUS_API None;
                       ConsoleError "Error fetching printer status:" ] |})
    end.
Proof.
  destruct s. unfold fetchPrinterStatus. step_handler.
  destruct (printer_status env) as [|[[|] [data|]]]; reflexivity.
Qed.

Lemma fetchJobs_failed (env : Env) (captured : option Job.t) (s : State) :
  failed (jobs env) = true ->
  run (fetchJobs captured) env s
  = (Return tt,
     {| state := s;
        trace := [ Fetch "GET" JOBS_API None;
                   ConsoleError "Error fetching jobs:" ] |}).
Proof.
  destruct s. unfold fetchJobs. step_handler.
  destruct (jobs env) as [|[[|] [data|]]]; cbn;
    intros F; try discriminate F; reflexivity.
Qed.

Lemma fetchLastValidCommand_run (env : Env) (s : State) :
  run fetchLastValidCommand env s
  = (Return tt,
     {| state :=
          {| printerData := printerData s;
             jobHistory := jobHistory s;
             currentJob := currentJob s;
             temperatureData := temperatureData s;
             lastValidCommand :=
               match last_valid env with
               | Resolved {| ok := true; json := Some command |} => command
               | _ => Some "Error fetching command."
               end;
             nextValidCommand := nextValidCommand s;
             rating := rating s |};
        trace :=
          Fetch "GET" LAST_VALID_API None ::
          if failed (last_valid env)
          then [ ConsoleError "Error fetching last valid command:" ]
          else [] |}).
Proof.
  unfold fetchLastValidCommand. step_handler.
  destruct (last_valid env) as [|[[|] [data|]]]; reflexivity.
Qed.

(** A command that fails only reports; one that succeeds reports and then
    polls the printer status. *)
Lemma sendCommand_run (env : Env) (s : State) (endpoint successMessage : string) :
  run (sendCommand endpoint successMessage) env s
  = if post_failed (post env endpoint None)
    then (Return tt,
          {| state := s;
             trace := [ Fetch "POST" endpoint None;
                        ConsoleError "Error sending command:";
                        Alert "Command failed. Check logs." ] |})
    else (Return tt,
          {| state := state (snd (run fetchPrinterStatus env s));
             trace := Fetch "POST" endpoint None :: Alert successMessage
                      :: trace (snd (run fetchPrinterStatus env s)) |}).
Proof.
  destruct s. unfold sendCommand, fetchPrinterStatus. step_handler.
  destruct (post env endpoint None) as [|[[|] body]]; cbn; try reflexivity.
  destruct (printer_status env) as [|[[|] [data|]]]; reflexivity.
Qed.

Lemma submitRating_run (env : Env) (s : State) (r : Rating.t) :
  run (submitRating r) env s
  = match Rating.jobId r with
    | Some jobId =>
        if jobId =? 0
        then (Return tt,
              {| state := s; trace := [ Alert "No job selected for rating." ] |})
        else
          if post_failed
               (post env RATE_PRINT_API
                  (Some (RatingPayload jobId (Rating.quality r) (Rating.speed r)
                           (Rating.feedback r))))
          then (Return tt,
                {| state := s;
                   trace :=
                     [ Fetch "POST" RATE_PRINT_API
                         (Some (RatingPayload jobId (Rating.quality r)
                                  (Rating.speed r) (Rating.feedback r)));
                       ConsoleError "Error submitting print rating:";
                       Alert "Failed to submit rating." ] |})
          else (Return tt,
                {| state :=
                     {| printerData := printerData s;
                        jobHistory := jobHistory s;
                        currentJob := currentJob s;
                        temperatureData := temperatureData s;
                        lastValidCommand := lastValidCommand s;
                        nextValidCommand := nextValidCommand s;
                        rating := {| Rating.quality := ""; Rating.speed := "";
                                     Rating.feedback := "";
                                     Rating.jobId := Some jobId |} |};
                   trace :=
                     [ Fetch "POST" RATE_PRINT_API
                         (Some (RatingPayload jobId (Rating.quality r)
                                  (Rating.speed r) (Rating.feedback r)));
                       Alert "Print rating submitted successfully!" ] |})
    | None =>
        (Return tt,
         {| state := s; trace := [ Alert "No job selected for rating." ] |})
    end.
Proof.
  destruct s. unfold submitRating.
  destruct (Rating.jobId r) as [jobId|] eqn:E; [|reflexivity].
  cbn [falsy_number]. destruct (jobId =? 0); [reflexivity|].
  step_handler.
  destruct (post env RATE_PRINT_API _) as [|[[|] body]]; cbn; try reflexivity.
Qed.

Lemma submitNextValidCommand_run (env : Env) (s : State) (text : jsstring) :
  run (submitNextValidCommand text) env s
  = match trim text with
    | [] =>
        (Return tt,
         {| state := s; trace := [ Alert "Please enter a valid command." ] |})
    | _ :: _ =>
        if post_failed (post env NEXT_VALID_API (Some (CommandPayload text)))
        then (Return tt,
              {| state := s;
                 trace :=
                   [ Fetch "POST" NEXT_VALID_API (Some (CommandPayload text));
                     ConsoleError "Error submitting next valid command:";
                     Alert "Failed to submit next valid command." ] |})
        else (Return tt,
              {| state :=
                   {| printerData := printerData s;
                      jobHistory := jobHistory s;
                      currentJob := currentJob s;
                      temperatureData := temperatureData s;
                      lastValidCommand := lastValidCommand s;
                      nextValidCommand := [];
                      rating := rating s |};
                 trace :=
                   [ Fetch "POST" NEXT_VALID_API (Some (CommandPayload text));
                     Alert "Next valid command submitted successfully!" ] |})
    end.
Proof.
  destruct s. unfold submitNextValidCommand.
  destruct (trim text) as [|c rest]; [reflexivity|].
  step_handler.
  destruct (post env NEXT_VALID_API _) as [|[[|] body]]; reflexivity.
Qed.

(** ** Clearing a finished job *)

(** C3. The component tracks an active job; a poll answers with a list in
    which no job is ongoing and the tracked job's id carries the status
    FINISHED or FAILED. Then a job poll from any closure, and so a tick,
    whose closure tracks no job, clears the current job; a second poll of
    the same list, again from any closure, leaves the state as the first
    left it, and a second tick leaves the current job cleared. The reset is
    logged by a closure that tracks the job, and never by the closure of
    the interval or of a render after the clearing, which track none. *)
Theorem fetchJobs_clears_finished_job_once (env : Env) (s : State)
    (tracked updated : Job.t) (l : list Job.t) :
  currentJob s = Some tracked ->
  isActiveStatus (Job.status tracked) = true ->
  jobs env = Resolved {| ok := true; json := Some l |} ->
  (forall job, In job l -> isOngoing job = false) ->
  In updated l ->
  Job.id updated = Job.id tracked ->
  (forall job, In job l -> Job.id job = Job.id tracked ->
     isTerminalStatus (Job.status job) = true) ->
  (forall captured,
     currentJob (state (snd (run (fetchJobs captured) env s))) = None)
  /\ currentJob (state (snd (run tick env s))) = None
  /\ (forall captured captured',
        state (snd (run (fetchJobs captured') env
                      (state (snd (run (fetchJobs captured) env s)))))
        = state (snd (run (fetchJobs captured) env s)))
  /\ currentJob (state (snd (run tick env (state (snd (run tick env s))))))
     = None
  /\ (forall s',
        trace (snd (run (fetchJobs (currentJob s)) env s'))
        = [ Fetch "GET" JOBS_API None;
            ConsoleLog "Print job completed! Resetting live metrics." ])
  /\ (forall s',
        trace (snd (run (fetchJobs None) env s')) = [ Fetch "GET" JOBS_API None ]).
Proof.
  intros Hc Ha H Hn Hin Hid Hterm.
  assert (T : forall s', currentJob (state (snd (run tick env s'))) = None).
  { intros s'. rewrite tick_run. cbn [snd state].
    rewrite fetchLastValidCommand_run. cbn [snd state currentJob].
    apply (fetchJobs_no_ongoing env None _ l H Hn). }
  split; [intros captured; apply (fetchJobs_no_ongoing env captured s l H Hn)|].
  split; [apply T|]. split; [|split; [apply T|split]].
  - intros captured captured'.
    destruct (fetchJobs_resolved env captured'
                (state (snd (run (fetchJobs captured) env s))) l H) as [_ ->].
    destruct (fetchJobs_resolved env captured s l H) as [_ ->].
    reflexivity.
  - intros s'. rewrite Hc.
    destruct (fetchJobs_no_ongoing env None s' l H Hn) as [Ef _].
    destruct (find (fun job => Job.id job =? Job.id tracked)
                (sort (SortCompare (byStartTimeDesc (getTime env))) l))
      as [u|] eqn:Eu.
    + apply (fetchJobs_trace_finished env tracked u s' l H Ef Ha Eu).
      apply find_some in Eu. destruct Eu as [Hu Hi].
      apply Hterm; [apply sort_In in Hu; exact Hu | apply Z.eqb_eq, Hi].
    + exfalso.
      pose proof (find_none _ _ Eu updated) as N. cbn beta in N.
      rewrite Hid, Z.eqb_refl in N.
      discriminate N. apply sort_In, Hin.
  - intros s'. apply (fetchJobs_trace_untracked env s' l H).
Qed.

Lemma fetchJobs_clears_finished_job_once_witness :
  (forall captured,
     currentJob (state (snd (run (fetchJobs captured)
       (backend_up (example_status 210 false false)
          [ example_job 7 "FINISHED" "2025-03-01T10:00:00Z" (value "2025-03-01T11:30:00Z") ])
       (tracking (example_job 7 "STARTED" "2025-03-01T10:00:00Z" null)))))
     = None)
  /\ currentJob (state (snd (run tick
        (backend_up (example_status 210 false false)
           [ example_job 7 "FINISHED" "2025-03-01T10:00:00Z" (value "2025-03-01T11:30:00Z") ])
        (tracking (example_job 7 "STARTED" "2025-03-01T10:00:00Z" null)))))
     = None.
Proof.
  destruct (fetchJobs_clears_finished_job_once
              (backend_up (example_status 210 false false)
                 [ example_job 7 "FINISHED" "2025-03-01T10:00:00Z" (value "2025-03-01T11:30:00Z") ])
              (tracking (example_job 7 "STARTED" "2025-03-01T10:00:00Z" null))
              (example_job 7 "STARTED" "2025-03-01T10:00:00Z" null)
              (example_job 7 "FINISHED" "2025-03-01T10:00:00Z" (value "2025-03-01T11:30:00Z"))
              [ example_job 7 "FINISHED" "2025-03-01T10:00:00Z" (value "2025-03-01T11:30:00Z") ])
    as (H1 & H2 & _).
  - reflexivity.
  - reflexivity.
  - reflexivity.
  - intros job [<-|[]]. reflexivity.
  - left. reflexivity.
  - reflexivity.
  - intros job [<-|[]] _. reflexivity.
  - split; [exact H1 | exact H2].
Defined.

(** ** Invariants of the component *)

Lemma consistent_initialState : consistent initialState.
Proof. repeat split. cbn. lia. Qed.

Lemma consistent_fetchPrinterStatus (env : Env) (s : State) :
  consistent s -> consistent (state (snd (run fetchPrinterStatus env s))).
Proof.
  intros (Hj & Hl & Hp). rewrite fetchPrinterStatus_run.
  destruct (printer_status env) as [|[[|] [data|]]];
    cbn [snd state]; try (repeat split; assumption).
  split; [exact Hj|]. split; cbn [temperatureData printerData].
  - rewrite length_app, length_slice_last. cbn [List.length]. lia.
  - exists (slice_last 19 (temperatureData s)), (toLocaleTimeString env).
    reflexivity.
Qed.

Lemma consistent_fetchJobs (env : Env) (captured : option Job.t) (s : State) :
  consistent s -> consistent (state (snd (run (fetchJobs captured) env s))).
Proof.
  intros (Hj & Hl & Hp).
  destruct (failed (jobs env)) eqn:F.
  - rewrite fetchJobs_failed by exact F. repeat split; assumption.
  - destruct (failed_false _ F) as [l E].
    destruct (fetchJobs_resolved env captured s l E) as [_ ->].
    repeat split; assumption.
Qed.

Lemma consistent_fetchLastValidCommand (env : Env) (s : State) :
  consistent s -> consistent (state (snd (run fetchLastValidCommand env s))).
Proof.
  intros (Hj & Hl & Hp). rewrite fetchLastValidCommand_run.
  repeat split; assumption.
Qed.

(** No closure of the component, run in any environment, breaks
    consistency. *)
Lemma consistent_perform (a : Action) (env : Env) (s : State) :
  consistent s -> consistent (state (snd (run (perform a) env s))).
Proof.
  intros H.
  destruct a as [|captured| | |endpoint successMessage|r|text|v|r v|r v|r v|r v];
    cbn [perform].
  - apply consistent_fetchPrinterStatus, H.
  - apply consistent_fetchJobs, H.
  - apply consistent_fetchLastValidCommand, H.
  - rewrite tick_run. cbn [snd state].
    apply consistent_fetchLastValidCommand, consistent_fetchJobs,
      consistent_fetchPrinterStatus, H.
  - rewrite sendCommand_run.
    destruct (post_failed _); cbn [snd state];
      [exact H | apply consistent_fetchPrinterStatus, H].
  - rewrite submitRating_run. destruct H as (Hj & Hl & Hp).
    destruct (Rating.jobId r) as [jobId|]; [|repeat split; assumption].
    destruct (jobId =? 0); [repeat split; assumption|].
    destruct (post_failed _); repeat split; assumption.
  - rewrite submitNextValidCommand_run. destruct H as (Hj & Hl & Hp).
    destruct (trim text); [repeat split; assumption|].
    destruct (post_failed _); repeat split; assumption.
  - destruct H as (Hj & Hl & Hp). repeat split; assumption.
  - destruct H as (Hj & Hl & Hp). repeat split; assumption.
  - destruct H as (Hj & Hl & Hp). repeat split; assumption.
  - destruct H as (Hj & Hl & Hp). repeat split; assumption.
  - destruct H as (Hj & Hl & Hp). repeat split; assumption.
Qed.

Lemma consistent_after (steps : list (Action * Env)) (s : State) :
  consistent s -> consistent (after steps s).
Proof.
  revert s. induction steps as [|[a env] steps IH]; intros s H; [exact H|].
  cbn [after fold_left fst snd]. apply IH, consistent_perform, H.
Qed.

(** X1. Whatever the component has done since its first render (polls,
    ticks, commands, submissions, edits, each in any environment and from
    any closure), its current job is the first ongoing job of its job
    history: when there is one, it is a job of the history with an active
    status and a [null] end time. *)
Theorem currentJob_first_ongoing_of_jobHistory (steps : list (Action * Env)) :
  currentJob (after steps initialState)
  = find isOngoing (jobHistory (after steps initialState))
  /\ forall job, currentJob (after steps initialState) = Some job ->
       In job (jobHistory (after steps initialState))
       /\ isActiveStatus (Job.status job) = true
       /\ Job.end_time job = null.
Proof.
  destruct (consistent_after steps initialState consistent_initialState)
    as (Hj & _ & _).
  split; [exact Hj|].
  intros job E. rewrite Hj in E. apply find_some in E. destruct E as [Hin Ho].
  split; [exact Hin|].
  unfold isOngoing in Ho. apply andb_true_iff in Ho. destruct Ho as [Ha Hn].
  split; [exact Ha|]. destruct (Job.end_time job); cbn in Hn; congruence.
Qed.

Lemma currentJob_first_ongoing_of_jobHistory_witness :
  In (example_job 3 "STARTED" "2025-03-01T11:30:00Z" null)
     (jobHistory (after example_history initialState))
  /\ isActiveStatus (Job.status (example_job 3 "STARTED" "2025-03-01T11:30:00Z" null))
     = true
  /\ Job.end_time (example_job 3 "STARTED" "2025-03-01T11:30:00Z" null) = null.
Proof.
  apply (proj2 (currentJob_first_ongoing_of_jobHistory example_history)).
  reflexivity.
Defined.

(** X2. Whatever the component has done since its first render, command
    buttons included, its temperature buffer holds at most 20 samples; it
    is empty exactly while no printer status is loaded; and once a status
    is loaded its newest sample carries the temperatures of that status. *)
Theorem temperatureData_follows_printerData (steps : list (Action * Env)) :
  (List.length (temperatureData (after steps initialState)) <= 20)%nat
  /\ (printerData (after steps initialState) = None
      <-> temperatureData (after steps initialState) = [])
  /\ forall data, printerData (after steps initialState) = Some data ->
       exists time,
         last (temperatureData (after steps initialState))
              {| Sample.time := ""; Sample.nozzle := 0; Sample.bed := 0 |}
         = {| Sample.time := time;
              Sample.nozzle := PrinterStatus.nozzle_temperature data;
              Sample.bed := PrinterStatus.bed_temperature data |}.
Proof.
  destruct (consistent_after steps initialState consistent_initialState)
    as (_ & Hl & Hp).
  split; [exact Hl|].
  destruct (printerData (after steps initialState)) as [data|].
  - destruct Hp as (older & time & E). split.
    + split; [discriminate|]. rewrite E. intros N.
      apply app_eq_nil in N. destruct N as [_ N]. discriminate N.
    + intros d [= <-]. exists time. rewrite E. apply last_last.
  - split; [tauto|]. discriminate.
Qed.

Lemma temperatureData_follows_printerData_witness :
  exists time,
    last (temperatureData (after example_history initialState))
         {| Sample.time := ""; Sample.nozzle := 0; Sample.bed := 0 |}
    = {| Sample.time := time;
         Sample.nozzle := PrinterStatus.nozzle_temperature (example_status 205 false true);
         Sample.bed := PrinterStatus.bed_temperature (example_status 205 false true) |}.
Proof.
  apply (proj2 (proj2 (temperatureData_follows_printerData example_history))).
  reflexivity.
Defined.

(** ** The job history *)

Lemma sort_insert_Permutation {A} (compareFn : A -> A -> Z) (a : A) (l : list A) :
  Permutation (a :: l) (sort_insert compareFn a l).
Proof.
  induction l as [|b l IH]; cbn; [apply Permutation_refl|].
  destruct (compareFn a b <=? 0); [apply Permutation_refl|].
  apply perm_trans with (b :: a :: l); [apply perm_swap|].
  apply perm_skip, IH.
Qed.

Lemma sort_Permutation {A} (compareFn : A -> A -> Z) (l : list A) :
  Permutation l (sort compareFn l).
Proof.
  induction l as [|a l IH]; cbn; [apply perm_nil|].
  apply perm_trans with (a :: sort compareFn l); [apply perm_skip, IH|].
  apply sort_insert_Permutation.
Qed.

(** Inserting a job moves it past later jobs only, so the jobs of any one
    start time keep their order. *)
Lemma sort_insert_stable (getTime : string -> option Z) (t : Z) (a : Job.t)
    (l : list Job.t) :
  getTime (Job.start_time a) <> None ->
  dated getTime l ->
  filter (startedAt getTime t)
         (sort_insert (SortCompare (byStartTimeDesc getTime)) a l)
  = filter (startedAt getTime t) (a :: l).
Proof.
  intros Ha. induction l as [|b l IH]; intros Hd; [reflexivity|].
  destruct (dated_cons getTime b l Hd) as [Hb Hd'].
  cbn [sort_insert]. unfold SortCompare at 1. unfold byStartTimeDesc at 1.
  destruct (getTime (Job.start_time a)) as [ta|] eqn:Ea; [|congruence].
  destruct (getTime (Job.start_time b)) as [tb|] eqn:Eb; [|congruence].
  destruct (Z.leb_spec (tb - ta) 0) as [Hle|Hgt]; [reflexivity|].
  cbn [filter] in *. rewrite (IH Hd'). unfold startedAt. rewrite Ea, Eb.
  destruct (Z.eqb_spec ta t) as [Eta|Nta];
    destruct (Z.eqb_spec tb t) as [Etb|Ntb];
    try reflexivity.
  lia.
Qed.

Lemma sort_stable (getTime : string -> option Z) (t : Z) (l : list Job.t) :
  dated getTime l ->
  filter (startedAt getTime t) (sort (SortCompare (byStartTimeDesc getTime)) l)
  = filter (startedAt getTime t) l.
Proof.
  induction l as [|a l IH]; intros Hd; [reflexivity|].
  destruct (dated_cons getTime a l Hd) as [Ha Hd'].
  cbn [sort fold_right]. fold (sort (SortCompare (byStartTimeDesc getTime)) l).
  rewrite sort_insert_stable; [|exact Ha|apply sort_dated, Hd'].
  cbn [filter]. rewrite (IH Hd'). reflexivity.
Qed.

(** X3. After a successful job poll the job history holds exactly the
    fetched jobs, each as often as it was fetched; and when every
    [start_time] of the list parses as a date, it is ordered newest first,
    with jobs of the same start time in the order the backend sent them. *)
Theorem fetchJobs_jobHistory_newest_first (env : Env) (captured : option Job.t)
    (s : State) (l : list Job.t) :
  jobs env = Resolved {| ok := true; json := Some l |} ->
  Permutation l (jobHistory (state (snd (run (fetchJobs captured) env s))))
  /\ (dated (getTime env) l ->
      StronglySorted (not_older (getTime env))
        (jobHistory (state (snd (run (fetchJobs captured) env s))))
      /\ forall t,
           filter (startedAt (getTime env) t)
                  (jobHistory (state (snd (run (fetchJobs captured) env s))))
           = filter (startedAt (getTime env) t) l).
Proof.
  intros H. destruct (fetchJobs_resolved env captured s l H) as [_ ->].
  cbn [jobHistory]. split; [apply sort_Permutation|]. intros Hd.
  split; [apply sort_sorted, Hd|]. intros t. apply sort_stable, Hd.
Qed.

Lemma fetchJobs_jobHistory_newest_first_witness :
  map Job.id
    (jobHistory (state (snd (run (fetchJobs None)
       (backend_up (example_status 210 true false)
          [ example_job 1 "FINISHED" "2025-03-01T09:00:00Z" (value "2025-03-01T09:40:00Z");
            example_job 2 "FAILED" "2025-03-01T11:30:00Z" (value "2025-03-01T11:31:00Z");
            example_job 3 "STARTED" "2025-03-01T11:30:00Z" null;
            example_job 4 "FINISHED" "2025-03-01T10:00:00Z" (value "2025-03-01T10:20:00Z") ])
       initialState))))
  = [2; 3; 4; 1]
  /\ StronglySorted (not_older example_getTime)
       (jobHistory (state (snd (run (fetchJobs None)
          (backend_up (example_status 210 true false)
             [ example_job 1 "FINISHED" "2025-03-01T09:00:00Z" (value "2025-03-01T09:40:00Z");
               example_job 2 "FAILED" "2025-03-01T11:30:00Z" (value "2025-03-01T11:31:00Z");
               example_job 3 "STARTED" "2025-03-01T11:30:00Z" null;
               example_job 4 "FINISHED" "2025-03-01T10:00:00Z" (value "2025-03-01T10:20:00Z") ])
          initialState)))).
Proof.
  split; [reflexivity|].
  apply (proj2 (fetchJobs_jobHistory_newest_first
                  (backend_up (example_status 210 true false) _) None
                  initialState _ eq_refl)).
  intros job [<-|[<-|[<-|[<-|[]]]]]; discriminate.
Defined.

(** The trace of a job poll that was answered with a list: the request,
    and the reset message at most once. *)
Lemma fetchJobs_trace_resolved (env : Env) (captured : option Job.t) (s : State)
    (l : list Job.t) :
  jobs env = Resolved {| ok := true; json := Some l |} ->
  trace (snd (run (fetchJobs captured) env s)) = [ Fetch "GET" JOBS_API None ]
  \/ trace (snd (run (fetchJobs captured) env s))
     = [ Fetch "GET" JOBS_API None;
         ConsoleLog "Print job completed! Resetting live metrics." ].
Proof.
  intros H. unfold fetchJobs, find_first. step_handler. rewrite H. cbn iota.
  destruct (find isOngoing _) as [ongoing|]; [left; reflexivity|].
  destruct captured as [tracked|]; [|left; reflexivity].
  destruct (isActiveStatus (Job.status tracked)); [|left; reflexivity].
  destruct (find (fun job => Job.id job =? _) _) as [updated|];
    [|left; reflexivity].
  destruct (isTerminalStatus (Job.status updated));
    [right|left]; reflexivity.
Qed.

(** X4. What a job poll writes does not depend on the job its closure
    tracks: from the same state and in the same environment, two polls
    from closures that captured different current jobs leave the same
    state, and their traces differ at most by the reset message. *)
Theorem fetchJobs_state_ignores_tracked_job (env : Env)
    (captured captured' : option Job.t) (s : State) :
  fst (run (fetchJobs captured) env s) = fst (run (fetchJobs captured') env s)
  /\ state (snd (run (fetchJobs captured) env s))
     = state (snd (run (fetchJobs captured') env s))
  /\ filter (fun e => negb (isConsoleLog e))
            (trace (snd (run (fetchJobs captured) env s)))
     = filter (fun e => negb (isConsoleLog e))
              (trace (snd (run (fetchJobs captured') env s))).
Proof.
  destruct (failed (jobs env)) eqn:F.
  - rewrite !fetchJobs_failed by exact F. repeat split.
  - destruct (failed_false _ F) as [l E].
    destruct (fetchJobs_resolved env captured s l E) as [-> ->].
    destruct (fetchJobs_resolved env captured' s l E) as [-> ->].
    split; [reflexivity|]. split; [reflexivity|].
    destruct (fetchJobs_trace_resolved env captured s l E) as [->| ->];
      destruct (fetchJobs_trace_resolved env captured' s l E) as [->| ->];
      reflexivity.
Qed.

(** ** Ticks and handlers *)

(** X5. Whatever the backend answers, a tick returns normally, sends
    exactly its three GET requests in the same order (a failed one does not
    stop the next), shows no alert, never logs the reset message of the job
    poll (its closure tracks no job), and leaves the rating draft and the
    next-valid-command field as they were. *)
Theorem tick_polls_quietly (env : Env) (s : State) :
  fst (run tick env s) = Return tt
  /\ filter isFetch (trace (snd (run tick env s)))
     = [ Fetch "GET" PRINTER_STATUS_API None;
         Fetch "GET" JOBS_API None;
         Fetch "GET" LAST_VALID_API None ]
  /\ filter isAlert (trace (snd (run tick env s))) = []
  /\ filter isConsoleLog (trace (snd (run tick env s))) = []
  /\ rating (state (snd (run tick env s))) = rating s
  /\ nextValidCommand (state (snd (run tick env s))) = nextValidCommand s.
Proof.
  rewrite tick_run. cbn [fst snd state trace].
  set (s1 := state (snd (run fetchPrinterStatus env s))).
  set (s2 := state (snd (run (fetchJobs None) env s1))).
  assert (T1 : (trace (snd (run fetchPrinterStatus env s))
                = [ Fetch "GET" PRINTER_STATUS_API None ]
                \/ trace (snd (run fetchPrinterStatus env s))
                   = [ Fetch "GET" PRINTER_STATUS_API None;
                       ConsoleError "Error fetching printer status:" ])
               /\ rating s1 = rating s
               /\ nextValidCommand s1 = nextValidCommand s).
  { unfold s1. rewrite fetchPrinterStatus_run.
    destruct (printer_status env) as [|[[|] [data|]]]; cbn; tauto. }
  assert (T2 : (trace (snd (run (fetchJobs None) env s1))
                = [ Fetch "GET" JOBS_API None ]
                \/ trace (snd (run (fetchJobs None) env s1))
                   = [ Fetch "GET" JOBS_API None;
                       ConsoleError "Error fetching jobs:" ])
               /\ rating s2 = rating s1
               /\ nextValidCommand s2 = nextValidCommand s1).
  { unfold s2. destruct (failed (jobs env)) eqn:F.
    - rewrite fetchJobs_failed by exact F. cbn. tauto.
    - destruct (failed_false _ F) as [l E].
      rewrite (fetchJobs_trace_untracked env s1 l E).
      destruct (fetchJobs_resolved env None s1 l E) as [_ ->]. cbn. tauto. }
  destruct T1 as (T1 & R1 & N1). destruct T2 as (T2 & R2 & N2).
  rewrite fetchLastValidCommand_run. cbn [snd state trace rating nextValidCommand].
  rewrite R2, R1, N2, N1.
  destruct T1 as [-> | ->]; destruct T2 as [-> | ->];
    destruct (failed (last_valid env)); repeat split.
Qed.

(** X6. No closure of the component throws: every poll, tick, command,
    submission and field edit returns normally, whatever the backend
    answers and whatever the state. *)
Theorem handlers_never_throw (a : Action) (env : Env) (s : State) :
  fst (run (perform a) env s) = Return tt.
Proof.
  destruct (run_returns (perform a) env s (never_throws_perform a)) as [[] H].
  exact H.
Qed.

(** X7. A command whose POST succeeds shows its success message and then
    polls the printer status at once: the state it leaves is the one that
    poll leaves, and its trace is the POST, the alert, and the trace of
    that poll. *)
Theorem sendCommand_success_polls_status (env : Env) (s : State)
    (endpoint successMessage : string) :
  post_failed (post env endpoint None) = false ->
  run (sendCommand endpoint successMessage) env s
  = (Return tt,
     {| state := state (snd (run fetchPrinterStatus env s));
        trace := Fetch "POST" endpoint None :: Alert successMessage
                 :: trace (snd (run fetchPrinterStatus env s)) |}).
Proof.
  intros H. rewrite sendCommand_run, H. reflexivity.
Qed.

Lemma sendCommand_success_polls_status_witness :
  run (sendCommand PAUSE_PRINT_API "Print paused.")
      (backend_up (example_status 210 false true) []) initialState
  = (Return tt,
     {| state := state (snd (run fetchPrinterStatus
                   (backend_up (example_status 210 false true) []) initialState));
        trace := Fetch "POST" PAUSE_PRINT_API None :: Alert "Print paused."
                 :: trace (snd (run fetchPrinterStatus
                      (backend_up (example_status 210 false true) [])
                      initialState)) |})
  /\ option_map PrinterStatus.paused
       (printerData (state (snd (run (sendCommand PAUSE_PRINT_API "Print paused.")
          (backend_up (example_status 210 false true) []) initialState))))
     = Some true.
Proof.
  split; [|reflexivity].
  apply sendCommand_success_polls_status. reflexivity.
Defined.

(** X8. A rating whose POST fails (rejected, or answered with a
    non-success status) is not lost: the submission returns normally,
    leaves the whole state, draft included, as it was, logs the error and
    shows the alert "Failed to submit rating.". *)
Theorem submitRating_failure_keeps_draft (env : Env) (s : State) (jobId : Z) :
  Rating.jobId (rating s) = Some jobId ->
  jobId <> 0 ->
  post_failed
    (post env RATE_PRINT_API
       (Some (RatingPayload jobId (Rating.quality (rating s))
                (Rating.speed (rating s)) (Rating.feedback (rating s)))))
  = true ->
  run (submitRating (rating s)) env s
  = (Return tt,
     {| state := s;
        trace :=
          [ Fetch "POST" RATE_PRINT_API
              (Some (RatingPayload jobId (Rating.quality (rating s))
                       (Rating.speed (rating s)) (Rating.feedback (rating s))));
            ConsoleError "Error submitting print rating:";
            Alert "Failed to submit rating." ] |}).
Proof.
  intros E Hnz F. rewrite submitRating_run, E.
  destruct (Z.eqb_spec jobId 0) as [Z0|_]; [contradiction|].
  rewrite F. reflexivity.
Qed.

Lemma submitRating_failure_keeps_draft_witness :
  run (submitRating (rating (rating_draft (Some 7)))) backend_failing
      (rating_draft (Some 7))
  = (Return tt,
     {| state := rating_draft (Some 7);
        trace :=
          [ Fetch "POST" RATE_PRINT_API
              (Some (RatingPayload 7 "8" "6.5" "Clean layers"));
            ConsoleError "Error submitting print rating:";
            Alert "Failed to submit rating." ] |}).
Proof.
  apply (submitRating_failure_keeps_draft backend_failing (rating_draft (Some 7)) 7).
  - reflexivity.
  - discriminate.
  - reflexivity.
Defined.

(** X9. The Submit button of the rating box is enabled exactly when a
    click on it sends a request, and then it sends exactly one, the POST of
    the rating; so the notice "No job selected for rating." cannot be
    reached through the enabled button. A job id of 0 counts as no job: the
    button is disabled and a submission would send nothing. *)
Theorem ratingSubmitButton_enabled_iff_posts (env : Env) (s : State)
    (r : Rating.t) :
  (enabled (ratingSubmitButton r) = true
   <-> exists jobId,
         Rating.jobId r = Some jobId /\ jobId <> 0
         /\ filter isFetch (trace (snd (run (onClick (ratingSubmitButton r)) env s)))
            = [ Fetch "POST" RATE_PRINT_API
                  (Some (RatingPayload jobId (Rating.quality r) (Rating.speed r)
                           (Rating.feedback r))) ])
  /\ (enabled (ratingSubmitButton r) = false
      <-> run (onClick (ratingSubmitButton r)) env s
          = (Return tt,
             {| state := s; trace := [ Alert "No job selected for rating." ] |})).
Proof.
  unfold enabled, ratingSubmitButton. cbn [disabled onClick].
  rewrite submitRating_run. unfold falsy_number.
  destruct (Rating.jobId r) as [jobId|].
  - destruct (Z.eqb_spec jobId 0) as [Z0|Nz]; cbn [negb].
    + split; split; try discriminate; try reflexivity.
      intros (j & [= <-] & Hj & _). contradiction.
    + split; split; try discriminate; try reflexivity.
      * intros _. exists jobId. repeat split; try assumption.
        destruct (post_failed _); reflexivity.
      * destruct (post_failed _); intros [= E]; discriminate E.
  - cbn [negb]. split; split; try discriminate; try reflexivity.
    intros (j & E & _). discriminate E.
Qed.

Lemma ratingSubmitButton_enabled_iff_posts_witness :
  exists jobId,
    Rating.jobId (rating (rating_draft (Some 7))) = Some jobId /\ jobId <> 0
    /\ filter isFetch
         (trace (snd (run (onClick (ratingSubmitButton (rating (rating_draft (Some 7)))))
            backend_failing (rating_draft (Some 7)))))
       = [ Fetch "POST" RATE_PRINT_API
             (Some (RatingPayload jobId
                      (Rating.quality (rating (rating_draft (Some 7))))
                      (Rating.speed (rating (rating_draft (Some 7))))
                      (Rating.feedback (rating (rating_draft (Some 7)))))) ].
Proof.
  apply (proj1 (proj1 (ratingSubmitButton_enabled_iff_posts backend_failing
                         (rating_draft (Some 7)) (rating (rating_draft (Some 7)))))).
  reflexivity.
Defined.

(** ** Durations *)

Lemma length_append (s t : string) :
  String.length (s ++ t) = (String.length s + String.length t)%nat.
Proof. induction s as [|c s IH]; cbn; [reflexivity | rewrite IH; reflexivity]. Qed.

Lemma append_eq_same_length (s1 s2 t1 t2 : string) :
  String.length s1 = String.length s2 ->
  s1 ++ t1 = s2 ++ t2 -> s1 = s2 /\ t1 = t2.
Proof.
  revert s2. induction s1 as [|c s1 IH]; intros [|d s2] L E; cbn in *;
    try discriminate.
  - split; [reflexivity | exact E].
  - injection E as -> E. injection L as L.
    destruct (IH s2 L E) as [-> ->]. split; reflexivity.
Qed.

Lemma formatDuration_fields (seconds : Z) :
  0 < seconds ->
  formatDuration (Some seconds)
  = padStart 2 "0" (toString (seconds / 3600)) ++ ":" ++
    padStart 2 "0" (toString (seconds mod 3600 / 60)) ++ ":" ++
    padStart 2 "0" (toString (seconds mod 60)).
Proof.
  intros H. unfold formatDuration.
  destruct (Z.eqb_spec seconds 0) as [E|_]; [lia|]. cbv zeta.
  rewrite !Z.rem_mod_nonneg by lia. reflexivity.
Qed.

Lemma seconds_fields (seconds : Z) :
  0 < seconds ->
  0 <= seconds / 3600
  /\ 0 <= seconds mod 3600 / 60 < 60
  /\ 0 <= seconds mod 60 < 60
  /\ seconds = 3600 * (seconds / 3600) + 60 * (seconds mod 3600 / 60)
               + seconds mod 60.
Proof.
  intros H.
  pose proof (Z.mod_pos_bound seconds 3600 ltac:(lia)) as B1.
  pose proof (Z.mod_pos_bound seconds 60 ltac:(lia)) as B2.
  pose proof (Z.div_mod seconds 3600 ltac:(lia)) as D1.
  pose proof (Z.div_mod (seconds mod 3600) 60 ltac:(lia)) as D2.
  assert (E : (seconds mod 3600) mod 60 = seconds mod 60).
  { apply Z.mod_mod_divide. exists 60. reflexivity. }
  repeat split;
    first [ lia | apply Z.div_pos; lia | apply Z.div_lt_upper_bound; lia ].
Qed.




(** ** Durations on doubles *)

(** The rounded quotient is within half a unit of the exact one. *)
Lemma roundHalfEven_spec (n d : Z) :
  0 <= n -> 0 < d ->
  - d <= 2 * (roundHalfEven n d * d - n) <= d.
Proof.
  intros Hn Hd. unfold roundHalfEven.
  pose proof (Z.div_mod n d ltac:(lia)) as E.
  pose proof (Z.mod_pos_bound n d Hd) as B.
  destruct (Z.ltb_spec (2 * (n mod d)) d) as [H1|H1]; [nia|].
  destruct (Z.ltb_spec d (2 * (n mod d))) as [H2|H2]; [nia|].
  destruct (Z.even (n / d)); nia.
Qed.

(** On the safe integers [Math.floor(a / b)] is the integer quotient: the
    rounding of [a / b] to a double never reaches the next integer. *)
Lemma floorDivide_safe (a b : Z) :
  0 < b -> 0 <= a < 2 ^ 53 -> floorDivide a b = a / b.
Proof.
  intros Hb [Ha Hs]. unfold floorDivide.
  rewrite (Z.abs_eq a) by exact Ha.
  destruct (Z.ltb_spec a b) as [Hlt|Hge].
  - destruct (Z.ltb_spec a 0); [lia|]. symmetry. apply Z.div_small. lia.
  - set (q := a / b).
    assert (Hq : 1 <= q).
    { unfold q. apply Z.div_le_lower_bound; lia. }
    pose proof (Z.div_mod a b ltac:(lia)) as E. fold q in E.
    pose proof (Z.mod_pos_bound a b Hb) as B.
    destruct (Z.log2_spec q ltac:(lia)) as [L1 L2].
    set (e := Z.log2 q) in *.
    assert (He : 0 <= e) by apply Z.log2_nonneg.
    assert (Hqa : q <= a) by nia.
    assert (He52 : e <= 52).
    { destruct (Z.le_gt_cases e 52) as [H|H]; [exact H|].
      assert (2 ^ 53 <= 2 ^ e) by (apply Z.pow_le_mono_r; lia). lia. }
    destruct (Z.leb_spec 0 (52 - e)) as [Hk|Hk]; [|lia].
    set (P := 2 ^ (52 - e)).
    assert (HP : 0 < P) by (apply Z.pow_pos_nonneg; lia).
    assert (HPe : 2 ^ e * P = 2 ^ 52).
    { unfold P. rewrite <- Z.pow_add_r by lia. f_equal. lia. }
    assert (HbP : b < 2 * P).
    { assert (b * 2 ^ e < 2 * P * 2 ^ e) by nia.
      apply (Z.mul_lt_mono_pos_r (2 ^ e)); [lia | exact H]. }
    rewrite (Z.sgn_pos a) by lia. rewrite Z.mul_1_l.
    pose proof (roundHalfEven_spec (a * P) b ltac:(nia) Hb) as R.
    set (m := roundHalfEven (a * P) b) in *.
    symmetry. apply (Z.div_unique m P q (m - P * q)); [|lia].
    left. split; nia.
Qed.

(** On the safe integers the double computation is the exact one. *)
Lemma formatDurationNumber_safe (seconds : Z) :
  0 <= seconds <= MAX_SAFE_INTEGER ->
  formatDurationNumber (Some seconds) = formatDuration (Some seconds).
Proof.
  unfold MAX_SAFE_INTEGER. intros [H0 H1].
  assert (P53 : 2 ^ 53 = 9007199254740992) by reflexivity.
  unfold formatDurationNumber, formatDuration, toNumber.
  rewrite (Z.abs_eq seconds) by exact H0.
  destruct (Z.ltb_spec seconds (2 ^ 53)) as [_|H]; [|lia].
  destruct (Z.eqb_spec seconds 0) as [E|N]; [reflexivity|]. cbv zeta.
  assert (Hr : Z.rem seconds 3600 = seconds mod 3600)
    by (apply Z.rem_mod_nonneg; lia).
  assert (Hs : Z.rem seconds 60 = seconds mod 60)
    by (apply Z.rem_mod_nonneg; lia).
  pose proof (Z.mod_pos_bound seconds 3600 ltac:(lia)) as B1.
  pose proof (Z.mod_pos_bound seconds 60 ltac:(lia)) as B2.
  rewrite Hr, Hs.
  rewrite (floorDivide_safe seconds 3600) by lia.
  rewrite (floorDivide_safe (seconds mod 3600) 60) by lia.
  assert (Bh : 0 <= seconds / 3600 < 2 ^ 53).
  { split; [apply Z.div_pos; lia | apply Z.div_lt_upper_bound; lia]. }
  assert (Bm : 0 <= seconds mod 3600 / 60 < 2 ^ 53).
  { split; [apply Z.div_pos; lia | apply Z.div_lt_upper_bound; lia]. }
  unfold numberToString.
  rewrite !Z.abs_eq by lia.
  destruct (Z.ltb_spec (seconds / 3600) (2 ^ 53)); [|lia].
  destruct (Z.ltb_spec (seconds mod 3600 / 60) (2 ^ 53)); [|lia].
  destruct (Z.ltb_spec (seconds mod 60) (2 ^ 53)); [|lia].
  reflexivity.
Qed.

Lemma formatDuration_renders (seconds : Z) :
  0 < seconds -> renders_hms (formatDuration (Some seconds)) seconds.
Proof.
  intros H.
  destruct (seconds_fields seconds H) as (Hh & Hm & Hs & E).
  destruct (padded_field _ Hh) as [Vh Lh].
  destruct (padded_field (seconds mod 3600 / 60) ltac:(lia)) as [Vm _].
  destruct (padded_field (seconds mod 60) ltac:(lia)) as [Vs _].
  exists (padStart 2 "0" (toString (seconds / 3600))),
         (padStart 2 "0" (toString (seconds mod 3600 / 60))),
         (padStart 2 "0" (toString (seconds mod 60))),
         (seconds / 3600), (seconds mod 3600 / 60), (seconds mod 60).
  repeat match goal with |- _ /\ _ => split end;
    try assumption; try lia;
    try (apply padded_field_below_60; lia).
  apply formatDuration_fields, H.
Qed.

(** C7, as the code has it. [formatDuration] of an absent value or of [0]
    is ["N/A"], of [3661] it is ["01:01:01"], and of a positive whole
    number of seconds up to [2^53 - 1] it is three fields of decimal digits
    joined by colons: hours, at least two characters wide, then minutes and
    seconds, each below 60 and exactly two characters wide, which together
    add up to the seconds given. *)
Theorem formatDuration_safe_seconds :
  formatDurationNumber None = "N/A"
  /\ formatDurationNumber (Some 0) = "N/A"
  /\ formatDurationNumber (Some 3661) = "01:01:01"
  /\ forall seconds : Z, 0 < seconds <= MAX_SAFE_INTEGER ->
     renders_hms (formatDurationNumber (Some seconds)) seconds.
Proof.
  repeat split; try reflexivity.
  intros seconds [H0 H1].
  rewrite formatDurationNumber_safe by lia.
  apply formatDuration_renders, H0.
Qed.

Lemma formatDuration_safe_seconds_witness :
  renders_hms (formatDurationNumber (Some 45296)) 45296.
Proof.
  apply (proj2 (proj2 (proj2 formatDuration_safe_seconds)) 45296).
  unfold MAX_SAFE_INTEGER. lia.
Defined.

(** A text of three given fields renders only the seconds its fields add
    up to. *)
Lemma renders_hms_fields (H M S : string) (seconds : Z) :
  String.length M = 2%nat -> String.length S = 2%nat ->
  renders_hms (H ++ ":" ++ M ++ ":" ++ S) seconds ->
  exists h m s,
    decimal_value H = Some h /\ decimal_value M = Some m
    /\ decimal_value S = Some s /\ seconds = 3600 * h + 60 * m + s.
Proof.
  intros LM LS (hh & mm & ss & h & m & s & E & Vh & _ & Vm & Lm & Vs & Ls & _ & _ & _ & Es).
  assert (L : String.length H = String.length hh).
  { apply (f_equal String.length) in E. rewrite !length_append in E.
    cbn [String.length] in E. lia. }
  destruct (append_eq_same_length _ _ _ _ L E) as [-> E1].
  cbn [append] in E1. injection E1 as E1.
  destruct (append_eq_same_length _ _ _ _ (eq_trans LM (eq_sym Lm)) E1)
    as [-> E2].
  cbn [append] in E2. injection E2 as ->.
  exists h, m, s. repeat split; assumption.
Qed.

Example formatDuration_1e20 :
  formatDurationNumber (Some (10 ^ 20)) = "27777777777777776:46:40".
Proof. vm_compute. reflexivity. Qed.

Example formatDuration_2p82 :
  formatDurationNumber (Some (2 ^ 82)) = "1.3432509106829213e+21:05:04".
Proof. vm_compute. reflexivity. Qed.

(** C7, as the specification words it, fails beyond the safe integers. Of
    [10^20] seconds the code gives 27777777777777776:46:40, hours rounded to
    a double, whose fields no longer add up to the seconds; of [2^82]
    seconds it gives hours with a fraction and an exponent. *)
Lemma formatDuration_beyond_safe_integers :
  ~ renders_hms (formatDurationNumber (Some (10 ^ 20))) (10 ^ 20)
  /\ ~ renders_hms (formatDurationNumber (Some (2 ^ 82))) (2 ^ 82).
Proof.
  split; intros R.
  - rewrite formatDuration_1e20 in R.
    apply (renders_hms_fields "27777777777777776" "46" "40") in R;
      try reflexivity.
    destruct R as (h & m & s & Vh & Vm & Vs & E).
    vm_compute in Vh, Vm, Vs.
    injection Vh as <-. injection Vm as <-. injection Vs as <-.
    vm_compute in E. discriminate E.
  - rewrite formatDuration_2p82 in R.
    apply (renders_hms_fields "1.3432509106829213e+21" "05" "04") in R;
      try reflexivity.
    destruct R as (h & m & s & Vh & _).
    vm_compute in Vh. discriminate Vh.
Qed.

(** ** Rating submission, again *)

(** X11. After a successful rating the form keeps its job, so Submit stays
    enabled; a second click, answered with a success status again, posts
    the emptied draft (empty quality, speed and feedback) for the same job
    and leaves the state as the first submission left it. *)
Theorem submitRating_twice_posts_empty_draft (env : Env) (s : State) (jobId : Z) :
  Rating.jobId (rating s) = Some jobId ->
  jobId <> 0 ->
  (forall payload, post_failed (post env RATE_PRINT_API payload) = false) ->
  enabled (ratingSubmitButton
             (rating (state (snd (run (submitRating (rating s)) env s))))) = true
  /\ run (submitRating (rating (state (snd (run (submitRating (rating s)) env s)))))
         env (state (snd (run (submitRating (rating s)) env s)))
     = (Return tt,
        {| state := state (snd (run (submitRating (rating s)) env s));
           trace := [ Fetch "POST" RATE_PRINT_API
                        (Some (RatingPayload jobId "" "" ""));
                      Alert "Print rating submitted successfully!" ] |}).
Proof.
  intros E Hnz Hok.
  assert (S1 : state (snd (run (submitRating (rating s)) env s))
               = {| printerData := printerData s;
                    jobHistory := jobHistory s;
                    currentJob := currentJob s;
                    temperatureData := temperatureData s;
                    lastValidCommand := lastValidCommand s;
                    nextValidCommand := nextValidCommand s;
                    rating := {| Rating.quality := ""; Rating.speed := "";
                                 Rating.feedback := "";
                                 Rating.jobId := Some jobId |} |}).
  { rewrite submitRating_run, E.
    destruct (Z.eqb_spec jobId 0) as [Z0|_]; [contradiction|].
    rewrite Hok. reflexivity. }
  rewrite S1. split.
  - unfold enabled, ratingSubmitButton. cbn.
    destruct (Z.eqb_spec jobId 0) as [Z0|_]; [contradiction | reflexivity].
  - rewrite submitRating_run. cbn [rating Rating.jobId Rating.quality
      Rating.speed Rating.feedback printerData jobHistory currentJob
      temperatureData lastValidCommand nextValidCommand].
    destruct (Z.eqb_spec jobId 0) as [Z0|_]; [contradiction|].
    rewrite Hok. reflexivity.
Qed.

Lemma submitRating_twice_posts_empty_draft_witness :
  enabled (ratingSubmitButton
    (rating (state (snd (run (submitRating (rating (rating_draft (Some 7))))
       (backend_up (example_status 210 false false) []) (rating_draft (Some 7)))))))
  = true
  /\ trace (snd (run
       (submitRating (rating (state (snd (run (submitRating (rating (rating_draft (Some 7))))
          (backend_up (example_status 210 false false) []) (rating_draft (Some 7)))))))
       (backend_up (example_status 210 false false) [])
       (state (snd (run (submitRating (rating (rating_draft (Some 7))))
          (backend_up (example_status 210 false false) []) (rating_draft (Some 7)))))))
     = [ Fetch "POST" RATE_PRINT_API (Some (RatingPayload 7 "" "" ""));
         Alert "Print rating submitted successfully!" ].
Proof.
  destruct (submitRating_twice_posts_empty_draft
              (backend_up (example_status 210 false false) [])
              (rating_draft (Some 7)) 7 eq_refl ltac:(discriminate)
              (fun _ => eq_refl)) as [H1 H2].
  split; [exact H1|]. rewrite H2. reflexivity.
Defined.

(** ** Control buttons, again *)

(** X12. Of the four control buttons, Pause and Continue are never enabled
    together, Cancel is enabled exactly when one of them is, and Preheat is
    enabled whatever the status; when the printer neither prints nor is
    paused, Preheat is the only enabled button. *)
Theorem controlButtons_exclusive (status : PrinterStatus.t) :
  exists pause preheat continue cancel,
    controlButtons (Some status) = [pause; preheat; continue; cancel]
    /\ enabled pause && enabled continue = false
    /\ enabled cancel = enabled pause || enabled continue
    /\ enabled preheat = true
    /\ (enabled cancel = false
        <-> PrinterStatus.printing status = false
            /\ PrinterStatus.paused status = false).
Proof.
  unfold controlButtons. do 4 eexists. split; [reflexivity|].
  unfold enabled. cbn [disabled].
  destruct (PrinterStatus.printing status), (PrinterStatus.paused status);
    cbn; intuition congruence.
Qed.

(** ** Downloads *)








(** ** The next valid command *)

(** X16. After a next valid command was submitted with success the field
    is empty, so a second click on its Submit button sends nothing: it only
    shows "Please enter a valid command." and leaves the state as it is. *)
Theorem submitNextValidCommand_twice_sends_once (env env' : Env) (s : State) :
  forallb isWhiteSpace (nextValidCommand s) = false ->
  post_failed
    (post env NEXT_VALID_API (Some (CommandPayload (nextValidCommand s))))
  = false ->
  run (submitNextValidCommand
         (nextValidCommand
            (state (snd (run (submitNextValidCommand (nextValidCommand s)) env s)))))
      env'
      (state (snd (run (submitNextValidCommand (nextValidCommand s)) env s)))
  = (Return tt,
     {| state := state (snd (run (submitNextValidCommand (nextValidCommand s)) env s));
        trace := [ Alert "Please enter a valid command." ] |}).
Proof.
  intros W F.
  assert (E : nextValidCommand
                (state (snd (run (submitNextValidCommand (nextValidCommand s)) env s)))
              = []).
  { rewrite submitNextValidCommand_run.
    destruct (trim (nextValidCommand s)) as [|c rest] eqn:T.
    - apply trim_nil in T. congruence.
    - rewrite F. reflexivity. }
  rewrite E. rewrite (submitNextValidCommand_run env' _ []). reflexivity.
Qed.

Lemma submitNextValidCommand_twice_sends_once_witness :
  trace (snd (run
    (submitNextValidCommand
       (nextValidCommand
          (state (snd (run (submitNextValidCommand (nextValidCommand (typed [71; 50; 56]%N)))
             (backend_up (example_status 210 false true) []) (typed [71; 50; 56]%N))))))
    (backend_up (example_status 210 false true) [])
    (state (snd (run (submitNextValidCommand (nextValidCommand (typed [71; 50; 56]%N)))
       (backend_up (example_status 210 false true) []) (typed [71; 50; 56]%N))))))
  = [ Alert "Please enter a valid command." ].
Proof.
  rewrite (submitNextValidCommand_twice_sends_once
             (backend_up (example_status 210 false true) [])
             (backend_up (example_status 210 false true) [])
             (typed [71; 50; 56]%N) eq_refl eq_refl).
  reflexivity.
Defined.
